(** * The M-Pesa client of mpesa-sdk-nodejs (src/mpesa.ts), embedded in Rocq

    The class [Mpesa] is embedded shallowly: JavaScript values as an
    inductive type, the methods as functions in a state-and-exception monad
    whose state holds the object ([this]), the log of HTTP requests issued
    through axios and the number of clock and random reads; the network, the
    clock, the random source and the certificate encryption are a [World] of
    oracles.

    Scope of the model.  Strings are sequences of 8-bit characters: the model
    is exact for ASCII text, where the JavaScript length (UTF-16 code units)
    is the number of characters and [Buffer.from] (UTF-8) is the identity on
    the character codes.  Numbers are NaN and the integers, which print in
    plain decimal (as JavaScript prints them below 10^21); fractional numbers
    are outside the model. *)

From Stdlib Require Import ZArith NArith List Bool Ascii String Lia.
From Stdlib Require Import DecimalString DecimalPos.
Import ListNotations.
Open Scope list_scope.
Open Scope Z_scope.
Open Scope string_scope.

(** ** JavaScript values *)

#[warnings="-register-all"]
Inductive JSValue : Type :=
| JUndefined
| JNull
| JBool (b : bool)
| JNum (n : Z)
| JNaN
| JStr (s : string)
| JArr (items : list JSValue)
| JObj (fields : list (string * JSValue))
| JFunction (name : string).
(* [JObj fields]: the own properties of an object, keys distinct.
   [JFunction name]: a built-in function, such as the methods every object
   inherits. *)

(** [!v] is [negb (truthy v)]. *)
Definition truthy (v : JSValue) : bool :=
  match v with
  | JUndefined | JNull | JNaN => false
  | JBool b => b
  | JNum n => negb (Z.eqb n 0)
  | JStr s => negb (String.eqb s "")
  | JArr _ | JObj _ | JFunction _ => true
  end.

(** [a || b] *)
Definition js_or (a b : JSValue) : JSValue := if truthy a then a else b.

Fixpoint lookup (k : string) (fields : list (string * JSValue)) : JSValue :=
  match fields with
  | [] => JUndefined
  | (k', v) :: rest => if String.eqb k k' then v else lookup k rest
  end.

(** [v.k] and [v[k]] for a value [v] that is neither null nor undefined (every
    use below is behind a truthiness guard or optional chaining): an own
    property of an object, [undefined] otherwise.  The keys read by the
    program are not members of the built-in prototypes. *)
Definition getProp (v : JSValue) (k : string) : JSValue :=
  match v with
  | JObj fields => lookup k fields
  | _ => JUndefined
  end.

(** [v === s] for a string literal [s] *)
Definition js_is (v : JSValue) (s : string) : bool :=
  match v with
  | JStr t => String.eqb t s
  | _ => false
  end.

Definition decimal (n : Z) : string :=
  match n with
  | Z0 => "0"
  | Zpos p => NilEmpty.string_of_uint (Pos.to_uint p)
  | Zneg p => "-" ++ NilEmpty.string_of_uint (Pos.to_uint p)
  end.

(** [String(v)], [v.toString()] and the interpolation of [v] in a template
    literal *)
Fixpoint js_toString (v : JSValue) : string :=
  match v with
  | JUndefined => "undefined"
  | JNull => "null"
  | JBool true => "true"
  | JBool false => "false"
  | JNum n => decimal n
  | JNaN => "NaN"
  | JStr s => s
  | JArr items =>
      (fix join (l : list JSValue) : string :=
         match l with
         | [] => ""
         | x :: rest =>
             let sx := match x with
                       | JUndefined | JNull => ""
                       | _ => js_toString x
                       end in
             match rest with
             | [] => sx
             | _ => sx ++ "," ++ join rest
             end
         end) items
  | JObj _ => "[object Object]"
  | JFunction name => "function " ++ name ++ "() { [native code] }"
  end.

(** [Object.prototype]: the members every plain object inherits. *)
Definition objectPrototype : list (string * JSValue) :=
  [("constructor", JFunction "Object");
   ("__defineGetter__", JFunction "__defineGetter__");
   ("__defineSetter__", JFunction "__defineSetter__");
   ("hasOwnProperty", JFunction "hasOwnProperty");
   ("__lookupGetter__", JFunction "__lookupGetter__");
   ("__lookupSetter__", JFunction "__lookupSetter__");
   ("isPrototypeOf", JFunction "isPrototypeOf");
   ("propertyIsEnumerable", JFunction "propertyIsEnumerable");
   ("toString", JFunction "toString");
   ("valueOf", JFunction "valueOf");
   ("toLocaleString", JFunction "toLocaleString")].

(** [record[key]] for a plain object written as a literal with the own
    properties [own], under any key: the own property when there is one,
    else the member inherited from [Object.prototype], [__proto__] being
    the prototype itself. *)
Definition indexRecord (own : list (string * JSValue)) (key : string)
  : JSValue :=
  if existsb (String.eqb key) (List.map fst own) then lookup key own
  else if String.eqb key "__proto__" then JObj objectPrototype
  else lookup key objectPrototype.

(** ** Strings *)

(** [s.substring(n)] *)
Fixpoint js_substring (n : nat) (s : string) : string :=
  match n, s with
  | O, _ => s
  | S _, EmptyString => EmptyString
  | S n', String _ rest => js_substring n' rest
  end.

(** [s.slice(0, n)] *)
Fixpoint js_slice0 (n : nat) (s : string) : string :=
  match n, s with
  | O, _ => EmptyString
  | S _, EmptyString => EmptyString
  | S n', String c rest => String c (js_slice0 n' rest)
  end.

(** [s.startsWith(p)] *)
Definition startsWith (s p : string) : bool := String.prefix p s.

Definition is_digit (c : ascii) : bool :=
  N.leb 48 (N_of_ascii c) && N.leb (N_of_ascii c) 57.

(** [s.replace(/[^0-9]/g, '')] *)
Fixpoint keep_digits (s : string) : string :=
  match s with
  | EmptyString => EmptyString
  | String c rest =>
      if is_digit c then String c (keep_digits rest) else keep_digits rest
  end.

(** ** Base64, as [Buffer.from(s).toString('base64')] (RFC 4648, padded) *)

Module Base64.

Definition alphabet : string :=
  "ABCDEFGHIJKLMNOPQRSTUVWXYZabcdefghijklmnopqrstuvwxyz0123456789+/".

Definition sextet (n : N) : ascii :=
  match String.get (N.to_nat n) alphabet with
  | Some c => c
  | None => "="%char
  end.

Fixpoint encode_bytes (bs : list N) : string :=
  match bs with
  | [] => EmptyString
  | [a] =>
      String (sextet (N.shiftr a 2))
        (String (sextet (N.shiftl (N.land a 3) 4)) "==")
  | [a; b] =>
      String (sextet (N.shiftr a 2))
        (String (sextet (N.lor (N.shiftl (N.land a 3) 4) (N.shiftr b 4)))
           (String (sextet (N.shiftl (N.land b 15) 2)) "="))
  | a :: b :: c :: rest =>
      String (sextet (N.shiftr a 2))
        (String (sextet (N.lor (N.shiftl (N.land a 3) 4) (N.shiftr b 4)))
           (String (sextet (N.lor (N.shiftl (N.land b 15) 2) (N.shiftr c 6)))
              (String (sextet (N.land c 63)) (encode_bytes rest))))
  end%N.

(** [Buffer.from(s)]: the bytes of an ASCII string *)
Definition bytes (s : string) : list N :=
  List.map N_of_ascii (list_ascii_of_string s).

Definition encode (s : string) : string := encode_bytes (bytes s).

End Base64.

(** ** src/mpesa.ts: the pure helpers *)

(** [formatPhoneNumber], lines 113-129 *)
Definition formatPhoneNumber (phoneNumber : JSValue) : JSValue :=
  if negb (truthy phoneNumber) then JNull
  else
    let numberStr := js_toString phoneNumber in
    let numberLength := String.length numberStr in
    if Nat.eqb numberLength 9 then JStr ("254" ++ numberStr)
    else if Nat.eqb numberLength 10 then JStr ("254" ++ js_substring 1 numberStr)
    else if startsWith numberStr "254" then JStr numberStr else JStr numberStr.

(** [new Date().toISOString().replace(/[^0-9]/g, '').slice(0, 14)], line 28,
    from the ISO string the clock gave *)
Definition timeStampOf (iso : string) : string :=
  js_slice0 14 (keep_digits iso).

(** [generatePassword], lines 66-69, from the three fields it reads *)
Definition generatePassword (businessShortCode passKey : JSValue)
    (timeStamp : string) : string :=
  let password :=
    js_toString businessShortCode ++ js_toString passKey ++ timeStamp in
  Base64.encode password.

(** ** The environment: network, clock, random source, certificates *)

(** The configuration object handed to axios (lines 91-98 and 135-143). *)
Record Request : Type := mkRequest {
  method : string;
  url : string;
  headers : list (string * string);
  data : JSValue
}.

(** What the network does with a request. *)
Inductive HttpOutcome : Type :=
| NetworkError (message : string)
| HttpResponse (status : Z) (body : JSValue).

Inductive Certificate : Type :=
| ProductionCertificate
| SandboxCertificate.

Record World : Type := mkWorld {
  (** the answer to a request, given the requests issued before it *)
  http : list Request -> Request -> HttpOutcome;
  (** [new Date().toISOString()] at the n-th read of the clock *)
  dateISO : nat -> string;
  (** [Date.now()] at the n-th read of the clock *)
  dateNow : nat -> Z;
  (** [Math.random().toString(36)] at the n-th read *)
  mathRandom36 : nat -> string;
  (** [fs.readFileSync] of the certificate, then [crypto.publicEncrypt] of
      [Buffer.from(pass)] under PKCS#1 v1.5, in base64: the message of the
      error thrown, or the ciphertext *)
  publicEncrypt : Certificate -> JSValue -> string + string
}.

(** ** Exceptions and results *)

Record AxiosResponse : Type := mkAxiosResponse {
  response_data : JSValue;
  response_status : Z
}.

(** Modelled from the spec: class [MpesaException] of ./exceptions, which is
    not among the sources; the single error kind of the client, an [Error]
    that carries the message it was constructed with.

    The other errors the program meets: [AxiosError] is what axios rejects
    with; [TypeError] is a member access on null or undefined; [SystemError]
    comes from fs or crypto. *)
Inductive Thrown : Type :=
| AxiosError (message : string) (response : option AxiosResponse)
| TypeError (message : string)
| SystemError (message : string)
| MpesaException (message : JSValue).

(** [error.message] *)
Definition error_message (e : Thrown) : JSValue :=
  match e with
  | AxiosError m _ | TypeError m | SystemError m => JStr m
  | MpesaException v => v
  end.

(** [error.response?.data?.[k]] *)
Definition error_response_data (e : Thrown) (k : string) : JSValue :=
  match e with
  | AxiosError _ (Some r) => getProp (response_data r) k
  | _ => JUndefined
  end.

Inductive Outcome (A : Type) : Type :=
| Return (a : A)
| Throw (e : Thrown).

Arguments Return {A} a.
Arguments Throw {A} e.

(** ** Construction, lines 23-84 *)

Definition MpesaConfig : Type := list (string * JSValue).

Record Mpesa : Type := mkMpesa {
  environment : JSValue;
  requester : JSValue;
  timeStamp : string;
  shortCodeType : JSValue;
  passKey : JSValue;
  businessShortCode : JSValue;
  baseUrl : string;
  consumerSecret : JSValue;
  initiatorName : JSValue;
  initiatorPass : JSValue;
  consumerKey : JSValue;
  shortCodePassword : string;
  securityCredential : string
}.

Definition requiredKeys : list string :=
  ["env"; "credentials"; "appInfo"; "businessShortCode"; "shortCodeType";
   "requester"].

Definition requiredCredentials : list string :=
  ["passKey"; "initiatorPass"; "initiatorName"].

Definition requiredAppInfo : list string := ["consumerKey"; "consumerSecret"].

(** [keys.forEach(key => { if (!obj[key]) throw ... })]: the key the loop
    throws at, if any *)
Fixpoint firstMissing (obj : JSValue) (keys : list string) : option string :=
  match keys with
  | [] => None
  | key :: rest =>
      if negb (truthy (getProp obj key)) then Some key
      else firstMissing obj rest
  end.

(** [validateConfig], lines 43-64 *)
Definition validateConfig (config : MpesaConfig) : Outcome unit :=
  match firstMissing (JObj config) requiredKeys with
  | Some key =>
      Throw (MpesaException
               (JStr ("Missing required configuration parameter: " ++ key)))
  | None =>
      match firstMissing (lookup "credentials" config) requiredCredentials with
      | Some key =>
          Throw (MpesaException
                   (JStr ("Missing required credentials parameter: " ++ key)))
      | None =>
          match firstMissing (lookup "appInfo" config) requiredAppInfo with
          | Some key =>
              Throw (MpesaException
                       (JStr ("Missing required appInfo parameter: " ++ key)))
          | None => Return tt
          end
      end
  end.

(** [generateSecurityCredential], lines 71-84 *)
Definition generateSecurityCredential (w : World)
    (environment initiatorPass : JSValue) : Outcome string :=
  let certificatePath :=
    if js_is environment "production" then ProductionCertificate
    else SandboxCertificate in
  match publicEncrypt w certificatePath initiatorPass with
  | inl message => Throw (SystemError message)
  | inr ciphertext => Return ciphertext
  end.

(** The constructor, lines 23-41, at the [tick]-th read of the clock. *)
Definition construct (w : World) (tick : nat) (config : MpesaConfig)
  : Outcome Mpesa :=
  match validateConfig config with
  | Throw e => Throw e
  | Return _ =>
      let environment := lookup "env" config in
      let requester := lookup "requester" config in
      let timeStamp := timeStampOf (dateISO w tick) in
      let shortCodeType := lookup "shortCodeType" config in
      let passKey := getProp (lookup "credentials" config) "passKey" in
      let businessShortCode := lookup "businessShortCode" config in
      let baseUrl :=
        if js_is (lookup "env" config) "production"
        then "https://api.safaricom.co.ke"
        else "https://sandbox.safaricom.co.ke" in
      let consumerSecret :=
        getProp (lookup "appInfo" config) "consumerSecret" in
      let initiatorName :=
        getProp (lookup "credentials" config) "initiatorName" in
      let initiatorPass :=
        getProp (lookup "credentials" config) "initiatorPass" in
      let consumerKey := getProp (lookup "appInfo" config) "consumerKey" in
      let shortCodePassword :=
        generatePassword businessShortCode passKey timeStamp in
      match generateSecurityCredential w environment initiatorPass with
      | Throw e => Throw e
      | Return securityCredential =>
          Return (mkMpesa environment requester timeStamp shortCodeType
                    passKey businessShortCode baseUrl consumerSecret
                    initiatorName initiatorPass consumerKey
                    shortCodePassword securityCredential)
      end
  end.

(** ** The monad of the methods: state and exceptions *)

Record State : Type := mkState {
  (** the object the methods are called on *)
  self : Mpesa;
  (** the requests handed to axios so far, oldest first *)
  log : list Request;
  (** how many times the clock and the random source were read *)
  reads : nat
}.

Definition M (A : Type) : Type := State -> Outcome A * State.

Definition ret {A} (a : A) : M A := fun s => (Return a, s).

Definition throw {A} (e : Thrown) : M A := fun s => (Throw e, s).

Definition bind {A B} (m : M A) (k : A -> M B) : M B :=
  fun s =>
    match m s with
    | (Return a, s') => k a s'
    | (Throw e, s') => (Throw e, s')
    end.

(** [try { m } catch (error) { handler }] *)
Definition try_catch {A} (m : M A) (handler : Thrown -> M A) : M A :=
  fun s =>
    match m s with
    | (Return a, s') => (Return a, s')
    | (Throw e, s') => handler e s'
    end.

Definition getThis : M Mpesa := fun s => (Return (self s), s).

Declare Scope js_scope.
Delimit Scope js_scope with js.
Notation "x <- m ;; k" := (bind m (fun x => k))
  (at level 100, m at next level, right associativity) : js_scope.
Notation "m ;; k" := (bind m (fun _ => k))
  (at level 100, right associativity) : js_scope.
Open Scope js_scope.

(** [if (!v) throw new MpesaException(message)] *)
Definition require (v : JSValue) (message : string) : M unit :=
  if negb (truthy v) then throw (MpesaException (JStr message)) else ret tt.

(** a parameter with a default value: the default replaces [undefined] *)
Definition orDefault (v default : JSValue) : JSValue :=
  match v with
  | JUndefined => default
  | _ => v
  end.

(** ** axios, with its default [validateStatus] (package.json: axios ^1.7.9) *)

Definition validateStatus (status : Z) : bool :=
  Z.leb 200 status && Z.ltb status 300.

(** axios settles the promise: it resolves when the status is 0 or passes
    [validateStatus], and rejects otherwise and on a transport failure. *)
Definition settle (o : HttpOutcome) : Outcome AxiosResponse :=
  match o with
  | NetworkError message => Throw (AxiosError message None)
  | HttpResponse status body =>
      if Z.eqb status 0 || validateStatus status
      then Return (mkAxiosResponse body status)
      else Throw (AxiosError
                    ("Request failed with status code " ++ decimal status)
                    (Some (mkAxiosResponse body status)))
  end.

Section Methods.

Variable w : World.

Definition axios (config : Request) : M AxiosResponse :=
  fun s =>
    (settle (http w (log s) config),
     mkState (self s) (log s ++ [config])%list (reads s)).

(** [Date.now()] *)
Definition Date_now : M Z :=
  fun s => (Return (dateNow w (reads s)),
            mkState (self s) (log s) (S (reads s))).

(** [Math.random().toString(36)] *)
Definition Math_random36 : M string :=
  fun s => (Return (mathRandom36 w (reads s)),
            mkState (self s) (log s) (S (reads s))).

(** the request of [generateAccessToken], lines 87-98 *)
Definition tokenRequest (this : Mpesa) : Request :=
  let url := baseUrl this ++ "/oauth/v1/generate?grant_type=client_credentials" in
  let auth :=
    Base64.encode (js_toString (consumerKey this) ++ ":"
                   ++ js_toString (consumerSecret this)) in
  mkRequest "get" url
    [("Authorization", "Basic " ++ auth);
     ("Content-Type", "application/json")]
    JUndefined.

(** [response.data.access_token], a [TypeError] on null and undefined
    (V8's wording) *)
Definition access_token_of (d : JSValue) : M JSValue :=
  match d with
  | JUndefined =>
      throw (TypeError
        "Cannot read properties of undefined (reading 'access_token')")
  | JNull =>
      throw (TypeError
        "Cannot read properties of null (reading 'access_token')")
  | _ => ret (getProp d "access_token")
  end.

(** [generateAccessToken], lines 86-111.  Every value thrown inside the
    [try] is an [Error], the exception of line 104 included. *)
Definition generateAccessToken : M JSValue :=
  this <- getThis ;;
  try_catch
    (response <- axios (tokenRequest this) ;;
     access_token <- access_token_of (response_data response) ;;
     if truthy access_token then ret access_token
     else throw (MpesaException (JStr "Failed to generate access token")))
    (fun error =>
       throw (MpesaException
                (JStr ("Failed to generate access token: "
                       ++ js_toString (error_message error))))).

Record MpesaResponse : Type := mkMpesaResponse {
  response : JSValue;
  httpCode : Z
}.

(** the request of [sendRequest], lines 135-143 *)
Definition postRequest (this : Mpesa) (accessToken : JSValue)
    (endpoint : string) (data : JSValue) : Request :=
  mkRequest "post" (baseUrl this ++ "/" ++ endpoint)
    [("Content-Type", "application/json");
     ("Authorization", "Bearer " ++ js_toString accessToken)]
    data.

(** [sendRequest], lines 131-156 *)
Definition sendRequest (endpoint : string) (data : JSValue)
  : M MpesaResponse :=
  this <- getThis ;;
  try_catch
    (accessToken <- generateAccessToken ;;
     response <- axios (postRequest this accessToken endpoint data) ;;
     ret (mkMpesaResponse (response_data response)
            (response_status response)))
    (fun error =>
       throw (MpesaException
                (js_or (error_response_data error "errorMessage")
                   (js_or (error_response_data error "ResponseDescription")
                      (error_message error))))).

(** The check every method repeats after [sendRequest] (lines 191-203 in
    [stkPush]): [keys] are the members of the body tried, in order, for the
    message of a status other than 200. *)
Definition checkResponse (keys : list string) (r : MpesaResponse)
  : M JSValue :=
  if negb (truthy (response r))
  then throw (MpesaException (JStr "No response received"))
  else if negb (Z.eqb (httpCode r) 200)
  then throw
         (MpesaException
            (fold_right (fun k rest => js_or (getProp (response r) k) rest)
               (JStr ("Request failed with status " ++ decimal (httpCode r)))
               keys))
  else ret (response r).

Definition standardKeys : list string := ["ResponseMessage"; "errorMessage"].

(** [queryOrgInfo], lines 206-240 *)
Definition queryOrgInfo (type shortCode : JSValue) : M JSValue :=
  identifierType <-
    (if js_is type "till" then ret 2
     else if js_is type "paybill" then ret 4
     else throw (MpesaException (JStr "Identifier type is not supported"))) ;;
  response <- sendRequest "sfcverify/v1/query/info"
    (JObj [("IdentifierType", JNum identifierType);
           ("Identifier", shortCode)]) ;;
  checkResponse standardKeys response.

(** [getBusinessName], lines 158-161 *)
Definition getBusinessName : M JSValue :=
  this <- getThis ;;
  orgInfo <- queryOrgInfo (shortCodeType this) (businessShortCode this) ;;
  ret (getProp orgInfo "OrganizationName").

(** [stkPush], lines 163-204 *)
Definition stkPush
    (amount phoneNumber accountNumber callBackUrl description : JSValue)
  : M JSValue :=
  let description := orDefault description (JStr "STK Push Request") in
  require phoneNumber "Phone number is required" ;;
  require amount "Amount is required" ;;
  require accountNumber "Account Number is required" ;;
  require callBackUrl "Callback url is required" ;;
  this <- getThis ;;
  let formattedPhone := formatPhoneNumber phoneNumber in
  response <- sendRequest "mpesa/stkpush/v1/processrequest"
    (JObj [("Amount", amount);
           ("PartyA", formattedPhone);
           ("CallBackURL", callBackUrl);
           ("Timestamp", JStr (timeStamp this));
           ("TransactionDesc", description);
           ("PhoneNumber", formattedPhone);
           ("PartyB", businessShortCode this);
           ("AccountReference", accountNumber);
           ("TransactionType", JStr "CustomerPayBillOnline");
           ("BusinessShortCode", businessShortCode this);
           ("Password", JStr (shortCodePassword this))]) ;;
  checkResponse standardKeys response.

(** [generateQRCode], lines 242-271.  The object literal evaluates
    [await this.getBusinessName()] before the request is sent. *)
Definition generateQRCode (amount accountNumber size : JSValue)
  : M JSValue :=
  let size := orDefault size (JNum 300) in
  require amount "Amount is required" ;;
  this <- getThis ;;
  merchantName <- getBusinessName ;;
  response <- sendRequest "mpesa/qrcode/v1/generate"
    (JObj [("MerchantName", merchantName);
           ("RefNo", accountNumber);
           ("Amount", amount);
           ("TrxCode",
            if js_is (shortCodeType this) "paybill"
            then JStr "PB" else JStr "BG");
           ("CPI", businessShortCode this);
           ("Size", size)]) ;;
  checkResponse standardKeys response.

(** [stkPushQuery], lines 273-298 *)
Definition stkPushQuery (checkoutRequestCode : JSValue) : M JSValue :=
  require checkoutRequestCode "Checkout request code is required" ;;
  this <- getThis ;;
  response <- sendRequest "mpesa/stkpushquery/v1/query"
    (JObj [("BusinessShortCode", businessShortCode this);
           ("Password", JStr (shortCodePassword this));
           ("Timestamp", JStr (timeStamp this));
           ("CheckoutRequestID", checkoutRequestCode)]) ;;
  checkResponse standardKeys response.

(** [registerUrl], lines 300-328 *)
Definition registerUrl (responseType confirmationUrl validationUrl : JSValue)
  : M JSValue :=
  require confirmationUrl "Confirmation url is required" ;;
  require validationUrl "Validation url is required" ;;
  this <- getThis ;;
  response <- sendRequest "mpesa/c2b/v2/registerurl"
    (JObj [("ShortCode", businessShortCode this);
           ("ResponseType", responseType);
           ("ConfirmationURL", confirmationUrl);
           ("ValidationURL", validationUrl)]) ;;
  checkResponse standardKeys response.

(** [initiateB2C], lines 330-368 *)
Definition initiateB2C
    (amount phoneNumber commandID resultUrl queueTimeoutUrl remarks : JSValue)
  : M JSValue :=
  let queueTimeoutUrl := orDefault queueTimeoutUrl JNull in
  let remarks := orDefault remarks (JStr "Business Payment") in
  require amount "Amount is required" ;;
  require phoneNumber "Phone number is required" ;;
  require resultUrl "Result URL is required" ;;
  this <- getThis ;;
  response <- sendRequest "mpesa/b2c/v1/paymentrequest"
    (JObj [("InitiatorName", initiatorName this);
           ("SecurityCredential", JStr (securityCredential this));
           ("CommandID", commandID);
           ("Amount", amount);
           ("PartyA", businessShortCode this);
           ("PartyB", formatPhoneNumber phoneNumber);
           ("Remarks", remarks);
           ("QueueTimeOutURL", js_or queueTimeoutUrl resultUrl);
           ("ResultURL", resultUrl);
           ("Occasion", JStr "")]) ;;
  checkResponse standardKeys response.

(** [transactionStatus], lines 370-404 *)
Definition transactionStatus
    (transactionID resultUrl queueTimeoutUrl : JSValue) : M JSValue :=
  let queueTimeoutUrl := orDefault queueTimeoutUrl JNull in
  require transactionID "Transaction ID is required" ;;
  require resultUrl "Result Url is required" ;;
  this <- getThis ;;
  response <- sendRequest "mpesa/transactionstatus/v1/query"
    (JObj [("Initiator", initiatorName this);
           ("SecurityCredential", JStr (securityCredential this));
           ("CommandID", JStr "TransactionStatusQuery");
           ("TransactionID", transactionID);
           ("PartyA", businessShortCode this);
           ("IdentifierType",
            if js_is (shortCodeType this) "paybill"
            then JStr "4" else JStr "2");
           ("ResultURL", resultUrl);
           ("QueueTimeOutURL", js_or queueTimeoutUrl resultUrl);
           ("Remarks", JStr "Transaction Status Query");
           ("Occasion", JStr "")]) ;;
  checkResponse standardKeys response.

(** [accountBalance], lines 406-437 *)
Definition accountBalance (resultUrl queueTimeoutUrl : JSValue)
  : M JSValue :=
  let queueTimeoutUrl := orDefault queueTimeoutUrl JNull in
  require resultUrl "Result Url is required" ;;
  this <- getThis ;;
  response <- sendRequest "mpesa/accountbalance/v1/query"
    (JObj [("Initiator", initiatorName this);
           ("SecurityCredential", JStr (securityCredential this));
           ("CommandID", JStr "AccountBalance");
           ("PartyA", businessShortCode this);
           ("IdentifierType",
            if js_is (shortCodeType this) "paybill"
            then JStr "4" else JStr "2");
           ("ResultURL", resultUrl);
           ("QueueTimeOutURL", js_or queueTimeoutUrl resultUrl);
           ("Remarks", JStr "Account Balance Query");
           ("Occasion", JStr "")]) ;;
  checkResponse standardKeys response.

(** [reverseTransaction], lines 439-476 *)
Definition reverseTransaction
    (amount transactionID resultUrl queueTimeoutUrl : JSValue)
  : M JSValue :=
  let queueTimeoutUrl := orDefault queueTimeoutUrl JNull in
  require transactionID "Transaction ID is required" ;;
  require amount "Amount is required" ;;
  require resultUrl "Result Url is required" ;;
  this <- getThis ;;
  response <- sendRequest "mpesa/reversal/v1/request"
    (JObj [("Initiator", initiatorName this);
           ("SecurityCredential", JStr (securityCredential this));
           ("CommandID", JStr "TransactionReversal");
           ("TransactionID", transactionID);
           ("Amount", amount);
           ("ReceiverParty", businessShortCode this);
           ("RecieverIdentifierType", JStr "11");
           ("ResultURL", resultUrl);
           ("QueueTimeOutURL", js_or queueTimeoutUrl resultUrl);
           ("Remarks", JStr "Transaction Reversal");
           ("Occasion", JStr "")]) ;;
  checkResponse standardKeys response.

(** [taxRemittance], lines 478-516 *)
Definition taxRemittance
    (amount paymentRegistrationNo resultUrl queueTimeoutUrl : JSValue)
  : M JSValue :=
  let queueTimeoutUrl := orDefault queueTimeoutUrl JNull in
  require paymentRegistrationNo "Payment Registration No is required" ;;
  require amount "Amount is required" ;;
  require resultUrl "Result Url is required" ;;
  this <- getThis ;;
  response <- sendRequest "mpesa/b2b/v1/remittax"
    (JObj [("Initiator", initiatorName this);
           ("SecurityCredential", JStr (securityCredential this));
           ("CommandID", JStr "PayTaxToKRA");
           ("SenderIdentifierType", JStr "4");
           ("RecieverIdentifierType", JStr "4");
           ("Amount", amount);
           ("PartyA", businessShortCode this);
           ("PartyB", JStr "572572");
           ("AccountReference", paymentRegistrationNo);
           ("Remarks", JStr "Tax Remittance");
           ("QueueTimeOutURL", js_or queueTimeoutUrl resultUrl);
           ("ResultURL", resultUrl)]) ;;
  checkResponse standardKeys response.

(** the record [commandID] of [initiateB2B], lines 530-534 *)
Definition commandIDs : list (string * JSValue) :=
  [("PaybillToPaybill", JStr "BusinessPayBill");
   ("PaybillToTill", JStr "BusinessBuyGoods");
   ("B2BAccountTopUp", JStr "BusinessPayToBulk")].

(** [initiateB2B], lines 518-565.  [commandID[paymentType]] converts the
    key to a string and finds the own properties of the record and the
    members it inherits from [Object.prototype]. *)
Definition initiateB2B
    (amount paymentType shortCode accountNumber resultUrl
       queueTimeoutUrl : JSValue) : M JSValue :=
  let queueTimeoutUrl := orDefault queueTimeoutUrl JNull in
  require shortCode "Short code is required" ;;
  require amount "Amount is required" ;;
  require resultUrl "Result Url is required" ;;
  this <- getThis ;;
  response <- sendRequest "mpesa/b2b/v1/paymentrequest"
    (JObj [("Initiator", initiatorName this);
           ("SecurityCredential", JStr (securityCredential this));
           ("CommandID", indexRecord commandIDs (js_toString paymentType));
           ("SenderIdentifierType", JStr "4");
           ("RecieverIdentifierType", JStr "4");
           ("Amount", amount);
           ("PartyA", businessShortCode this);
           ("PartyB", shortCode);
           ("AccountReference", accountNumber);
           ("Requester", requester this);
           ("Remarks", JStr "OK");
           ("QueueTimeOutURL", js_or queueTimeoutUrl resultUrl);
           ("ResultURL", resultUrl)]) ;;
  checkResponse standardKeys response.

(** [s.substr(2, 9)] *)
Definition substr_2_9 (s : string) : string := js_slice0 9 (js_substring 2 s).

(** [initiateB2BExpressCheckout], lines 567-605 *)
Definition initiateB2BExpressCheckout
    (amount receiverShortCode callBackUrl partnerName paymentRef
       requestRef : JSValue) : M JSValue :=
  let paymentRef := orDefault paymentRef JNull in
  let requestRef := orDefault requestRef JNull in
  require amount "Amount is required" ;;
  require receiverShortCode "Short code is required" ;;
  require partnerName "Partner Name is required" ;;
  require callBackUrl "Callback Url is required" ;;
  now1 <- Date_now ;;
  random1 <- Math_random36 ;;
  let requestRefID :=
    "B2B_" ++ decimal now1 ++ "_" ++ substr_2_9 random1 in
  now2 <- Date_now ;;
  random2 <- Math_random36 ;;
  let paymentRefID :=
    "PAYREFID_" ++ decimal now2 ++ "_" ++ substr_2_9 random2 in
  this <- getThis ;;
  response <- sendRequest "v1/ussdpush/get-msisdn"
    (JObj [("PrimaryPartyCode", businessShortCode this);
           ("ReceiverPartyCode", receiverShortCode);
           ("Amount", amount);
           ("CallBackUrl", callBackUrl);
           ("RequestRefID", js_or requestRef (JStr requestRefID));
           ("PaymentRef", js_or paymentRef (JStr paymentRefID));
           ("PartnerName", partnerName)]) ;;
  checkResponse ["errorMessage"] response.

(** [mpesaRatiba], lines 607-656 *)
Definition mpesaRatiba
    (amount phoneNumber accountReference startDate endDate
       standingOrderName callBackUrl frequency : JSValue) : M JSValue :=
  let frequency := orDefault frequency (JStr "2") in
  require amount "Amount is required" ;;
  require phoneNumber "Phone number is required" ;;
  require accountReference "Account reference is required" ;;
  require callBackUrl "Callback Url is required" ;;
  require startDate "Start Date is required" ;;
  require endDate "End Date is required" ;;
  require standingOrderName "Standing Order Name is required" ;;
  this <- getThis ;;
  response <- sendRequest "mpesa/standingorders/v1/create"
    (JObj [("StandingOrderName", standingOrderName);
           ("StartDate", startDate);
           ("EndDate", endDate);
           ("BusinessShortCode", businessShortCode this);
           ("TransactionType",
            if js_is (shortCodeType this) "paybill"
            then JStr "Standing Order Customer Pay Bill"
            else JStr "Standing Order Customer Pay Marchant");
           ("ReceiverPartyIdentifierType",
            if js_is (shortCodeType this) "paybill"
            then JStr "4" else JStr "2");
           ("Amount", amount);
           ("PartyA", formatPhoneNumber phoneNumber);
           ("CallBackURL", callBackUrl);
           ("AccountReference", accountReference);
           ("TransactionDesc",
            JStr ("Payment to " ++ js_toString (businessShortCode this)));
           ("Frequency", frequency);
           ("Password", JStr (shortCodePassword this));
           ("Timestamp", JStr (timeStamp this))]) ;;
  checkResponse ["errorMessage"] response.

(** *** Calls

    A call of one of the thirteen business methods (spec 4.6) with its
    arguments; an argument the caller leaves out is [JUndefined]. *)
Inductive Call : Type :=
| StkPush (amount phoneNumber accountNumber callBackUrl description : JSValue)
| QueryOrgInfo (type shortCode : JSValue)
| GenerateQRCode (amount accountNumber size : JSValue)
| StkPushQuery (checkoutRequestCode : JSValue)
| RegisterUrl (responseType confirmationUrl validationUrl : JSValue)
| InitiateB2C
    (amount phoneNumber commandID resultUrl queueTimeoutUrl remarks : JSValue)
| TransactionStatus (transactionID resultUrl queueTimeoutUrl : JSValue)
| AccountBalance (resultUrl queueTimeoutUrl : JSValue)
| ReverseTransaction
    (amount transactionID resultUrl queueTimeoutUrl : JSValue)
| TaxRemittance
    (amount paymentRegistrationNo resultUrl queueTimeoutUrl : JSValue)
| InitiateB2B
    (amount paymentType shortCode accountNumber resultUrl
       queueTimeoutUrl : JSValue)
| InitiateB2BExpressCheckout
    (amount receiverShortCode callBackUrl partnerName paymentRef
       requestRef : JSValue)
| MpesaRatiba
    (amount phoneNumber accountReference startDate endDate
       standingOrderName callBackUrl frequency : JSValue).

Definition invoke (c : Call) : M JSValue :=
  match c with
  | StkPush a p n u d => stkPush a p n u d
  | QueryOrgInfo t sc => queryOrgInfo t sc
  | GenerateQRCode a n sz => generateQRCode a n sz
  | StkPushQuery c => stkPushQuery c
  | RegisterUrl t cu vu => registerUrl t cu vu
  | InitiateB2C a p c r q k => initiateB2C a p c r q k
  | TransactionStatus t r q => transactionStatus t r q
  | AccountBalance r q => accountBalance r q
  | ReverseTransaction a t r q => reverseTransaction a t r q
  | TaxRemittance a p r q => taxRemittance a p r q
  | InitiateB2B a t sc n r q => initiateB2B a t sc n r q
  | InitiateB2BExpressCheckout a sc u n p r =>
      initiateB2BExpressCheckout a sc u n p r
  | MpesaRatiba a p r sd ed n u f => mpesaRatiba a p r sd ed n u f
  end.

(** A call of a public method: a business method or [getBusinessName]. *)
Inductive PublicCall : Type :=
| Business (c : Call)
| GetBusinessName.

Definition invokePublic (c : PublicCall) : M JSValue :=
  match c with
  | Business c => invoke c
  | GetBusinessName => getBusinessName
  end.

(** A caller that issues the calls one after the other, whatever each one
    returns or throws. *)
Fixpoint invokeAll (calls : list PublicCall) (s : State)
  : list (Outcome JSValue) * State :=
  match calls with
  | [] => ([], s)
  | c :: rest =>
      let (r, s') := invokePublic c s in
      let (rs, s'') := invokeAll rest s' in
      (r :: rs, s'')
  end.

End Methods.

(** ** Vocabulary of the statements *)

(** State [s] after the requests [rs] have been issued. *)
Definition issued (s : State) (rs : list Request) : State :=
  mkState (self s) (log s ++ rs)%list (reads s).

(** The status is one axios resolves the promise for. *)
Definition accepted (status : Z) : bool :=
  Z.eqb status 0 || validateStatus status.

(** What the token fetch makes of the network's answer to its request: the
    token, or the message of the underlying failure (a network error, a status
    axios rejects, a response without a usable [access_token]). *)
Definition tokenFetch (o : HttpOutcome) : string + JSValue :=
  match o with
  | NetworkError message => inl message
  | HttpResponse status body =>
      if accepted status then
        match body with
        | JUndefined =>
            inl "Cannot read properties of undefined (reading 'access_token')"
        | JNull =>
            inl "Cannot read properties of null (reading 'access_token')"
        | _ =>
            if truthy (getProp body "access_token")
            then inr (getProp body "access_token")
            else inl "Failed to generate access token"
        end
      else inl ("Request failed with status code " ++ decimal status)
  end.

(** The error of a failed token fetch, as the caller of a method sees it. *)
Definition authenticationError (underlying : string) : Thrown :=
  MpesaException (JStr ("Failed to generate access token: " ++ underlying)).

(** The message the dispatcher fails with on a response axios rejects. *)
Definition dispatchMessage (status : Z) (body : JSValue) : JSValue :=
  js_or (getProp body "errorMessage")
    (js_or (getProp body "ResponseDescription")
       (JStr ("Request failed with status code " ++ decimal status))).

(** The message a method fails with on a returned status other than 200. *)
Definition statusMessage (keys : list string) (status : Z) (body : JSValue)
  : JSValue :=
  fold_right (fun k rest => js_or (getProp body k) rest)
    (JStr ("Request failed with status " ++ decimal status)) keys.

(** What a method makes of the network's answer to its POST. *)
Definition answer (keys : list string) (o : HttpOutcome) : Outcome JSValue :=
  match o with
  | NetworkError message => Throw (MpesaException (JStr message))
  | HttpResponse status body =>
      if accepted status then
        if truthy body then
          if Z.eqb status 200 then Return body
          else Throw (MpesaException (statusMessage keys status body))
        else Throw (MpesaException (JStr "No response received"))
      else Throw (MpesaException (dispatchMessage status body))
  end.

(** [sendRequest] followed by the check of the response. *)
Definition exchange (w : World) (keys : list string) (endpoint : string)
    (payload : JSValue) : M JSValue :=
  r <- sendRequest w endpoint payload ;; checkResponse keys r.

(** The requests [exchange] issues from state [s]. *)
Definition exchanged (w : World) (endpoint : string) (payload : JSValue)
    (s : State) : list Request :=
  tokenRequest (self s) ::
  match tokenFetch (http w (log s) (tokenRequest (self s))) with
  | inl _ => []
  | inr token => [postRequest (self s) token endpoint payload]
  end.

(** The arguments a business method tests with [if (!arg) throw ...] before
    it does anything else, in the order of the tests. *)
Definition checkedArguments (c : Call) : list JSValue :=
  match c with
  | StkPush a p n u _ => [p; a; n; u]
  | QueryOrgInfo _ _ => []
  | GenerateQRCode a _ _ => [a]
  | StkPushQuery c => [c]
  | RegisterUrl _ cu vu => [cu; vu]
  | InitiateB2C a p _ r _ _ => [a; p; r]
  | TransactionStatus t r _ => [t; r]
  | AccountBalance r _ => [r]
  | ReverseTransaction a t r _ => [t; a; r]
  | TaxRemittance a p r _ => [p; a; r]
  | InitiateB2B a _ sc _ r _ => [sc; a; r]
  | InitiateB2BExpressCheckout a sc u n _ _ => [a; sc; n; u]
  | MpesaRatiba a p r sd ed n u _ => [a; p; r; u; sd; ed; n]
  end.

(** The required fields of the configuration (spec 4.1), by where they sit. *)
Inductive ConfigField : Type :=
| TopLevel (key : string)
| InCredentials (key : string)
| InAppInfo (key : string).

Definition requiredFields : list ConfigField :=
  (List.map TopLevel requiredKeys ++ List.map InCredentials requiredCredentials
   ++ List.map InAppInfo requiredAppInfo)%list.

Definition readField (config : MpesaConfig) (f : ConfigField) : JSValue :=
  match f with
  | TopLevel key => lookup key config
  | InCredentials key => getProp (lookup "credentials" config) key
  | InAppInfo key => getProp (lookup "appInfo" config) key
  end.

(** The message of the configuration error that names field [f]. *)
Definition missingFieldMessage (f : ConfigField) : string :=
  match f with
  | TopLevel key => "Missing required configuration parameter: " ++ key
  | InCredentials key => "Missing required credentials parameter: " ++ key
  | InAppInfo key => "Missing required appInfo parameter: " ++ key
  end.

(** The endpoints whose payload carries [Timestamp] and [Password]. *)
Definition stampedEndpoints : list string :=
  ["mpesa/stkpush/v1/processrequest"; "mpesa/stkpushquery/v1/query";
   "mpesa/standingorders/v1/create"].

(** A payload for one of these endpoints carries the client's own timestamp
    and password. *)
Definition stamped (this : Mpesa) (endpoint : string) (payload : JSValue)
  : Prop :=
  In endpoint stampedEndpoints ->
  getProp payload "Timestamp" = JStr (timeStamp this)
  /\ getProp payload "Password" = JStr (shortCodePassword this).

(** *** Traces

    [Exchange w this before keys endpoint payload trace r]: after the
    requests [before], one exchange with the network issues the requests
    [trace] and ends with [r].  Either the token fetch fails and nothing
    else is sent, or the token is used for the POST. *)
Inductive Exchange (w : World) (this : Mpesa) (before : list Request)
    (keys : list string) (endpoint : string) (payload : JSValue)
  : list Request -> Outcome JSValue -> Prop :=
| Exchange_denied (underlying : string) :
    tokenFetch (http w before (tokenRequest this)) = inl underlying ->
    Exchange w this before keys endpoint payload
      [tokenRequest this] (Throw (authenticationError underlying))
| Exchange_sent (token : JSValue) :
    tokenFetch (http w before (tokenRequest this)) = inr token ->
    Exchange w this before keys endpoint payload
      [tokenRequest this; postRequest this token endpoint payload]
      (answer keys
         (http w (before ++ [tokenRequest this])%list
            (postRequest this token endpoint payload))).

(** [Run w this keys before trace r]: a call of a business method whose
    check of the response uses [keys] issues the requests [trace] and ends
    with [r].  It stops before the network, or it is one exchange, or (in
    [generateQRCode]) an exchange that returned followed by a second one. *)
Inductive Run (w : World) (this : Mpesa) (keys : list string)
    (before : list Request)
  : list Request -> Outcome JSValue -> Prop :=
| Run_refused (message : string) :
    Run w this keys before [] (Throw (MpesaException (JStr message)))
| Run_one endpoint payload trace r :
    Exchange w this before keys endpoint payload trace r ->
    Run w this keys before trace r
| Run_two endpoint1 payload1 trace1 a endpoint2 payload2 trace2 r :
    Exchange w this before keys endpoint1 payload1 trace1 (Return a) ->
    Exchange w this (before ++ trace1)%list keys endpoint2 payload2 trace2 r ->
    Run w this keys before (trace1 ++ trace2)%list r.

(** The members of the body a method tries for the message of a status
    other than 200 (spec 4.6: two methods omit [ResponseMessage]). *)
Definition messageKeys (c : Call) : list string :=
  match c with
  | InitiateB2BExpressCheckout _ _ _ _ _ _ => ["errorMessage"]
  | MpesaRatiba _ _ _ _ _ _ _ _ => ["errorMessage"]
  | _ => standardKeys
  end.

(** The endpoint a method posts its own payload to (spec 4.6). *)
Definition endpointOf (c : Call) : string :=
  match c with
  | StkPush _ _ _ _ _ => "mpesa/stkpush/v1/processrequest"
  | QueryOrgInfo _ _ => "sfcverify/v1/query/info"
  | GenerateQRCode _ _ _ => "mpesa/qrcode/v1/generate"
  | StkPushQuery _ => "mpesa/stkpushquery/v1/query"
  | RegisterUrl _ _ _ => "mpesa/c2b/v2/registerurl"
  | InitiateB2C _ _ _ _ _ _ => "mpesa/b2c/v1/paymentrequest"
  | TransactionStatus _ _ _ => "mpesa/transactionstatus/v1/query"
  | AccountBalance _ _ => "mpesa/accountbalance/v1/query"
  | ReverseTransaction _ _ _ _ => "mpesa/reversal/v1/request"
  | TaxRemittance _ _ _ _ => "mpesa/b2b/v1/remittax"
  | InitiateB2B _ _ _ _ _ _ => "mpesa/b2b/v1/paymentrequest"
  | InitiateB2BExpressCheckout _ _ _ _ _ _ => "v1/ussdpush/get-msisdn"
  | MpesaRatiba _ _ _ _ _ _ _ _ => "mpesa/standingorders/v1/create"
  end.

(** The calls of [stkPush], [stkPushQuery] and [mpesaRatiba]. *)
Definition sendsStamp (c : PublicCall) : bool :=
  match c with
  | Business (StkPush _ _ _ _ _) => true
  | Business (StkPushQuery _) => true
  | Business (MpesaRatiba _ _ _ _ _ _ _ _) => true
  | _ => false
  end.

(** [s.endsWith(suffix)] *)
Fixpoint endsWith (s suffix : string) : bool :=
  if String.eqb s suffix then true
  else match s with
       | EmptyString => false
       | String _ rest => endsWith rest suffix
       end.

(** *** More vocabulary: what a call sent, headers, digits, decoding *)

(** The requests a call of a business method issues from state [s]. *)
Definition sent (w : World) (c : Call) (s : State) : list Request :=
  skipn (List.length (log s)) (log (snd (invoke w c s))).

(** The requests a sequence of public calls issues from state [s]. *)
Definition sentAll (w : World) (calls : list PublicCall) (s : State)
  : list Request :=
  skipn (List.length (log s)) (log (snd (invokeAll w calls s))).

(** The value of a header of a request. *)
Fixpoint header (name : string) (hs : list (string * string)) : option string :=
  match hs with
  | [] => None
  | (n, v) :: rest => if String.eqb name n then Some v else header name rest
  end.

(** Every character of the string is a decimal digit. *)
Fixpoint onlyDigits (s : string) : bool :=
  match s with
  | EmptyString => true
  | String c rest => is_digit c && onlyDigits rest
  end.

(** The number of decimal digits in a string. *)
Fixpoint countDigits (s : string) : nat :=
  match s with
  | EmptyString => O
  | String c rest =>
      if is_digit c then S (countDigits rest) else countDigits rest
  end.

(** Reading base64 back (RFC 4648, padded), to state that the encoding
    loses nothing. *)
Module Base64Decode.

Fixpoint position (c : ascii) (s : string) (i : N) : option N :=
  match s with
  | EmptyString => None
  | String d rest =>
      if Ascii.eqb c d then Some i else position c rest (N.succ i)
  end.

Definition value (c : ascii) : option N := position c Base64.alphabet 0%N.

Fixpoint decode (s : string) : option (list N) :=
  match s with
  | EmptyString => Some []
  | String c1 (String c2 (String c3 (String c4 rest))) =>
      match value c1, value c2 with
      | Some v1, Some v2 =>
          let a := N.lor (N.shiftl v1 2) (N.shiftr v2 4) in
          match value c3, value c4 with
          | Some v3, Some v4 =>
              let b := N.lor (N.shiftl (N.land v2 15) 4) (N.shiftr v3 2) in
              let c := N.lor (N.shiftl (N.land v3 3) 6) v4 in
              match decode rest with
              | Some l => Some (a :: b :: c :: l)
              | None => None
              end
          | Some v3, None =>
              let b := N.lor (N.shiftl (N.land v2 15) 4) (N.shiftr v3 2) in
              if Ascii.eqb c4 "="%char
              then match rest with
                   | EmptyString => Some [a; b]
                   | _ => None
                   end
              else None
          | None, _ =>
              if Ascii.eqb c3 "="%char && Ascii.eqb c4 "="%char
              then match rest with
                   | EmptyString => Some [a]
                   | _ => None
                   end
              else None
          end
      | _, _ => None
      end
  | _ => None
  end.

(** the numbers below [k] *)
Definition belowN (k : nat) : list N := List.map N.of_nat (seq 0 k).

(** the first two sextets give back the first byte *)
Definition head_ok (a b : N) : bool :=
  let s1 := N.shiftr a 2 in
  let s2 := N.lor (N.shiftl (N.land a 3) 4) (N.shiftr b 4) in
  (N.ltb s1 64 && N.ltb s2 64
   && N.eqb (N.lor (N.shiftl s1 2) (N.shiftr s2 4)) a
   && N.eqb (N.land s2 15) (N.shiftr b 4))%bool.

(** the last two sextets give back the last two bytes *)
Definition tail_ok (b c : N) : bool :=
  let s3 := N.lor (N.shiftl (N.land b 15) 2) (N.shiftr c 6) in
  let s4 := N.land c 63 in
  (N.ltb s3 64 && N.ltb s4 64
   && N.eqb (N.lor (N.shiftl (N.shiftr b 4) 4) (N.shiftr s3 2)) b
   && N.eqb (N.lor (N.shiftl (N.land s3 3) 6) s4) c)%bool.

End Base64Decode.

(** The result URL and the queue timeout URL of the six calls that take
    them. *)
Definition resultUrls (c : Call) : option (JSValue * JSValue) :=
  match c with
  | InitiateB2C _ _ _ r q _ => Some (r, q)
  | TransactionStatus _ r q => Some (r, q)
  | AccountBalance r q => Some (r, q)
  | ReverseTransaction _ _ r q => Some (r, q)
  | TaxRemittance _ _ r q => Some (r, q)
  | InitiateB2B _ _ _ _ r q => Some (r, q)
  | _ => None
  end.

(** The phone number of the three calls that take one, with the members of
    the payload it goes to. *)
Definition phoneOf (c : Call) : option (JSValue * list string) :=
  match c with
  | StkPush _ p _ _ _ => Some (p, ["PartyA"; "PhoneNumber"])
  | InitiateB2C _ p _ _ _ _ => Some (p, ["PartyB"])
  | MpesaRatiba _ p _ _ _ _ _ _ => Some (p, ["PartyA"])
  | _ => None
  end.

(** The member of the payload that tells the kind of shortcode, for the
    three calls that derive it from the client's [shortCodeType]. *)
Definition identifierKey (c : Call) : option string :=
  match c with
  | TransactionStatus _ _ _ => Some "IdentifierType"
  | AccountBalance _ _ => Some "IdentifierType"
  | MpesaRatiba _ _ _ _ _ _ _ _ => Some "ReceiverPartyIdentifierType"
  | _ => None
  end.

(** The value a call tests against "till" and "paybill" before it reaches
    the network: the type given to [queryOrgInfo], the client's own
    [shortCodeType] in [generateQRCode]. *)
Definition typeTested (this : Mpesa) (c : Call) : option JSValue :=
  match c with
  | QueryOrgInfo type _ => Some type
  | GenerateQRCode _ _ _ => Some (shortCodeType this)
  | _ => None
  end.

(** After the requests [before], every POST of [trace] comes right after a
    token request that was answered with a token, and is the POST made with
    that token. *)
Definition freshlyAuthorized (w : World) (this : Mpesa)
    (before trace : list Request) : Prop :=
  forall pre p post,
    trace = (pre ++ p :: post)%list -> method p = "post" ->
    exists pre' token endpoint payload,
      pre = (pre' ++ [tokenRequest this])%list
      /\ tokenFetch (http w (before ++ pre')%list (tokenRequest this))
         = inr token
      /\ p = postRequest this token endpoint payload.

(** Every request of [trace] is the token request or a POST under the base
    URL. *)
Definition ownRequests (this : Mpesa) (trace : list Request) : Prop :=
  forall r, In r trace ->
            r = tokenRequest this
            \/ exists token endpoint payload,
                r = postRequest this token endpoint payload.

(** The parameters with a default value that go into the payload of a call
    with one exchange: the member of the payload, the argument given and the
    default. *)
Definition defaulted (c : Call) : option (string * JSValue * JSValue) :=
  match c with
  | StkPush _ _ _ _ description =>
      Some ("TransactionDesc", description, JStr "STK Push Request")
  | InitiateB2C _ _ _ _ _ remarks =>
      Some ("Remarks", remarks, JStr "Business Payment")
  | MpesaRatiba _ _ _ _ _ _ _ frequency =>
      Some ("Frequency", frequency, JStr "2")
  | _ => None
  end.

(** ** Sample data *)

Module Sample.

Definition config : MpesaConfig :=
  [("env", JStr "sandbox");
   ("requester", JStr "254700000000");
   ("shortCodeType", JStr "paybill");
   ("businessShortCode", JStr "174379");
   ("credentials",
    JObj [("passKey",
           JStr "bfb279f9aa9bdbcf158e97dd71a467cd2e0c893059b10f78e6b72ada1ed2c919");
          ("initiatorName", JStr "testapi");
          ("initiatorPass", JStr "Safaricom999!*!")]);
   ("appInfo",
    JObj [("consumerKey", JStr "key"); ("consumerSecret", JStr "secret")])].

(** a network that answers the token request with [tokenAnswer] and every
    other request with [postAnswer]; a clock that stands at
    2016-02-16T16:56:27.000Z at construction and a day later afterwards *)
Definition world (tokenAnswer postAnswer : HttpOutcome) : World :=
  mkWorld
    (fun _ r => if String.eqb (method r) "get" then tokenAnswer
                else postAnswer)
    (fun n => match n with
              | O => "2016-02-16T16:56:27.000Z"
              | _ => "2016-02-17T16:56:27.000Z"
              end)
    (fun n => 1455728187000 + Z.of_nat n)
    (fun _ => "0.4fzyo82mvyr")
    (fun _ _ => inr "Y2lwaGVydGV4dA==").

(** the same configuration with the requester present and empty *)
Definition blankRequester : MpesaConfig :=
  [("env", JStr "sandbox");
   ("requester", JStr "");
   ("shortCodeType", JStr "paybill");
   ("businessShortCode", JStr "174379");
   ("credentials",
    JObj [("passKey",
           JStr "bfb279f9aa9bdbcf158e97dd71a467cd2e0c893059b10f78e6b72ada1ed2c919");
          ("initiatorName", JStr "testapi");
          ("initiatorPass", JStr "Safaricom999!*!")]);
   ("appInfo",
    JObj [("consumerKey", JStr "key"); ("consumerSecret", JStr "secret")])].

(** a world where the certificate cannot be used *)
Definition noCertificate : World :=
  mkWorld (fun _ _ => NetworkError "unused")
    (fun _ => "2016-02-16T16:56:27.000Z") (fun _ => 0) (fun _ => "0.1")
    (fun _ _ =>
       inl "ENOENT: no such file or directory, open 'SandboxCertificate.cer'").

Definition tokenOK : HttpOutcome :=
  HttpResponse 200 (JObj [("access_token", JStr "tok"); ("expires_in", JStr "3599")]).

Definition client : Mpesa :=
  match construct (world tokenOK (NetworkError "unused")) 0 config with
  | Return c => c
  | Throw _ =>
      mkMpesa JUndefined JUndefined "" JUndefined JUndefined JUndefined ""
        JUndefined JUndefined JUndefined JUndefined "" ""
  end.

Definition start : State := mkState client [] 1.

Definition invalidAmount : HttpOutcome :=
  HttpResponse 400 (JObj [("ResponseMessage", JStr "Invalid Amount")]).

Definition accepted : JSValue :=
  JObj [("MerchantRequestID", JStr "29115-34620561-1");
        ("CheckoutRequestID", JStr "ws_CO_191220191020363925");
        ("ResponseCode", JStr "0");
        ("ResponseDescription", JStr "Success. Request accepted for processing");
        ("CustomerMessage", JStr "Success. Request accepted for processing")].

Definition push : Call :=
  StkPush (JNum 100) (JStr "0712345678") (JStr "INV-1")
    (JStr "https://example.com/callback") JUndefined.

(** the POST of [push] under the token "tok" *)
Definition pushPost : Request :=
  postRequest client (JStr "tok") "mpesa/stkpush/v1/processrequest"
    (JObj [("Amount", JNum 100);
           ("PartyA", JStr "254712345678");
           ("CallBackURL", JStr "https://example.com/callback");
           ("Timestamp", JStr "20160216165627");
           ("TransactionDesc", JStr "STK Push Request");
           ("PhoneNumber", JStr "254712345678");
           ("PartyB", JStr "174379");
           ("AccountReference", JStr "INV-1");
           ("TransactionType", JStr "CustomerPayBillOnline");
           ("BusinessShortCode", JStr "174379");
           ("Password", JStr (shortCodePassword client))]).

(** [registerUrl] called without a response type *)
Definition register : Call :=
  RegisterUrl JUndefined (JStr "https://example.com/confirm")
    (JStr "https://example.com/validate").

Definition refused : HttpOutcome :=
  NetworkError "connect ECONNREFUSED 127.0.0.1:443".

(** a configuration whose environment is misspelt *)
Definition misspeltEnv : MpesaConfig :=
  [("env", JStr "Production");
   ("requester", JStr "254700000000");
   ("shortCodeType", JStr "Paybill");
   ("businessShortCode", JStr "174379");
   ("credentials",
    JObj [("passKey", JStr "k");
          ("initiatorName", JStr "testapi");
          ("initiatorPass", JStr "Safaricom999!*!")]);
   ("appInfo",
    JObj [("consumerKey", JStr "key"); ("consumerSecret", JStr "secret")])].

(** a world whose two certificates give different ciphertexts *)
Definition twoCertificates : World :=
  mkWorld (fun _ r => if String.eqb (method r) "get" then tokenOK
                      else HttpResponse 200 accepted)
    (fun _ => "2016-02-16T16:56:27.000Z") (fun n => 1455728187000 + Z.of_nat n)
    (fun _ => "0.4fzyo82mvyr")
    (fun cert _ => match cert with
                   | ProductionCertificate => inr "cHJvZA=="
                   | SandboxCertificate => inr "c2FuZGJveA=="
                   end).

(** the client of [misspeltEnv] *)
Definition misspelt : Mpesa :=
  match construct twoCertificates 0 misspeltEnv with
  | Return c => c
  | Throw _ => client
  end.

(** a configuration without pass key and without consumer key *)
Definition twoMissing : MpesaConfig :=
  [("env", JStr "sandbox");
   ("requester", JStr "254700000000");
   ("shortCodeType", JStr "paybill");
   ("businessShortCode", JStr "174379");
   ("credentials",
    JObj [("initiatorName", JStr "testapi");
          ("initiatorPass", JStr "Safaricom999!*!")]);
   ("appInfo", JObj [("consumerSecret", JStr "secret")])].

Definition everythingOK : World :=
  world tokenOK (HttpResponse 200 accepted).


(** the client of [misspeltEnv] before its first call *)
Definition startMisspelt : State := mkState misspelt [] 1.

(** the second request a call sent from [start], if it sent two *)
Definition secondSent (w : World) (c : Call) : Request :=
  nth 1 (sent w c start) (tokenRequest client).

(** a network that answers the organisation query with a name *)
Definition named : World :=
  world tokenOK (HttpResponse 200 (JObj [("OrganizationName", JStr "Duka")])).

End Sample.

Example sample_password :
  shortCodePassword Sample.client =
  "MTc0Mzc5YmZiMjc5ZjlhYTliZGJjZjE1OGU5N2RkNzFhNDY3Y2QyZTBjODkzMDU5YjEwZjc4ZTZiNzJhZGExZWQyYzkxOTIwMTYwMjE2MTY1NjI3".
Proof. vm_compute. reflexivity. Qed.

Example sample_push_ok :
  fst (invoke (Sample.world Sample.tokenOK (HttpResponse 200 Sample.accepted))
         Sample.push Sample.start) = Return Sample.accepted.
Proof. vm_compute. reflexivity. Qed.

(** ** Checks of the helpers on known values *)

Example base64_Man : Base64.encode "Man" = "TWFu".
Proof. reflexivity. Qed.

Example base64_Ma : Base64.encode "Ma" = "TWE=".
Proof. reflexivity. Qed.

Example base64_M : Base64.encode "M" = "TQ==".
Proof. reflexivity. Qed.

Example timeStampOf_iso :
  timeStampOf "2024-01-15T10:30:45.123Z" = "20240115103045".
Proof. reflexivity. Qed.

Example formatPhoneNumber_10 :
  formatPhoneNumber (JStr "0712345678") = JStr "254712345678".
Proof. reflexivity. Qed.

Example formatPhoneNumber_9 :
  formatPhoneNumber (JNum 712345678) = JStr "254712345678".
Proof. reflexivity. Qed.

Example formatPhoneNumber_12 :
  formatPhoneNumber (JStr "254712345678") = JStr "254712345678".
Proof. reflexivity. Qed.

Example formatPhoneNumber_falsy :
  formatPhoneNumber (JStr "") = JNull /\ formatPhoneNumber (JNum 0) = JNull.
Proof. split; reflexivity. Qed.

Example initiateB2B_commandID :
  List.map (fun r => getProp (data r) "CommandID")
    (log (snd (invoke
                 (Sample.world Sample.tokenOK
                    (HttpResponse 200 Sample.accepted))
                 (InitiateB2B (JNum 500) (JStr "PaybillToTill") (JStr "600000")
                    (JStr "INV-2") (JStr "https://example.com/result")
                    JUndefined)
                 Sample.start)))
  = [JUndefined; JStr "BusinessBuyGoods"].
Proof. vm_compute. reflexivity. Qed.

Example generateQRCode_requests :
  List.map url
    (log (snd (invoke
                 (Sample.world Sample.tokenOK
                    (HttpResponse 200
                       (JObj [("OrganizationName", JStr "Duka")])))
                 (GenerateQRCode (JNum 50) (JStr "INV-3") JUndefined)
                 Sample.start)))
  = ["https://sandbox.safaricom.co.ke/oauth/v1/generate?grant_type=client_credentials";
     "https://sandbox.safaricom.co.ke/sfcverify/v1/query/info";
     "https://sandbox.safaricom.co.ke/oauth/v1/generate?grant_type=client_credentials";
     "https://sandbox.safaricom.co.ke/mpesa/qrcode/v1/generate"].
Proof. vm_compute. reflexivity. Qed.

(** ** The guards *)

Lemma bind_require_true {A} (v : JSValue) (message : string)
    (k : unit -> M A) (s : State) :
  truthy v = true -> bind (require v message) k s = k tt s.
Proof. intros H. unfold bind, require. rewrite H. reflexivity. Qed.

Lemma bind_require_false {A} (v : JSValue) (message : string)
    (k : unit -> M A) (s : State) :
  truthy v = false ->
  bind (require v message) k s = (Throw (MpesaException (JStr message)), s).
Proof. intros H. unfold bind, require. rewrite H. reflexivity. Qed.

Lemma bind_getThis {A} (k : Mpesa -> M A) (s : State) :
  bind getThis k s = k (self s) s.
Proof. reflexivity. Qed.

(** A run that stops at a guard, or goes on past it. *)
Ltac at_guard :=
  match goal with
  | |- context [bind (require ?v ?m) ?k ?s] =>
      let E := fresh "E" in
      destruct (truthy v) eqn:E;
      [ rewrite (bind_require_true v m k s E)
      | rewrite (bind_require_false v m k s E) ]
  end.

(** ** The dispatcher *)

Section Dispatch.

Variable w : World.

Lemma generateAccessToken_run (s : State) :
  generateAccessToken w s =
  (match tokenFetch (http w (log s) (tokenRequest (self s))) with
   | inl underlying => Throw (authenticationError underlying)
   | inr token => Return token
   end,
   issued s [tokenRequest (self s)]).
Proof.
  unfold generateAccessToken, bind, getThis, try_catch, axios, issued.
  cbn [self log reads fst snd].
  destruct (http w (log s) (tokenRequest (self s))) as [m | st body];
    cbn [settle tokenFetch]; [reflexivity |].
  unfold accepted.
  destruct (Z.eqb st 0 || validateStatus st); [| reflexivity].
  destruct body; cbn; try reflexivity;
    match goal with
    | |- context [truthy ?v] => destruct (truthy v); reflexivity
    end.
Qed.

(** The requests [sendRequest] issues and what it hands to its caller: the
    pair of body and status for a status axios accepts, an exception for
    every other answer. *)
Lemma sendRequest_run (endpoint : string) (payload : JSValue) (s : State) :
  sendRequest w endpoint payload s =
  (match tokenFetch (http w (log s) (tokenRequest (self s))) with
   | inl underlying => Throw (authenticationError underlying)
   | inr token =>
       match http w (log s ++ [tokenRequest (self s)])%list
               (postRequest (self s) token endpoint payload) with
       | NetworkError message => Throw (MpesaException (JStr message))
       | HttpResponse status body =>
           if accepted status then Return (mkMpesaResponse body status)
           else Throw (MpesaException (dispatchMessage status body))
       end
   end,
   issued s (exchanged w endpoint payload s)).
Proof.
  unfold sendRequest, exchanged.
  unfold bind at 1. unfold getThis at 1. unfold try_catch, bind.
  rewrite generateAccessToken_run.
  destruct (tokenFetch (http w (log s) (tokenRequest (self s))))
    as [m | token].
  - reflexivity.
  - unfold axios, issued. cbn [self log reads].
    rewrite <- app_assoc. cbn [app].
    destruct (http w (log s ++ [tokenRequest (self s)])%list
                (postRequest (self s) token endpoint payload))
      as [m | st body]; cbn [settle]; [reflexivity |].
    fold (accepted st).
    destruct (accepted st); reflexivity.
Qed.

Lemma exchange_run (keys : list string) (endpoint : string)
    (payload : JSValue) (s : State) :
  exchange w keys endpoint payload s =
  (match tokenFetch (http w (log s) (tokenRequest (self s))) with
   | inl underlying => Throw (authenticationError underlying)
   | inr token =>
       answer keys
         (http w (log s ++ [tokenRequest (self s)])%list
            (postRequest (self s) token endpoint payload))
   end,
   issued s (exchanged w endpoint payload s)).
Proof.
  unfold exchange, bind. rewrite sendRequest_run.
  destruct (tokenFetch (http w (log s) (tokenRequest (self s))))
    as [m | token]; [reflexivity |].
  destruct (http w (log s ++ [tokenRequest (self s)])%list
              (postRequest (self s) token endpoint payload))
    as [m | st body]; cbn [answer]; [reflexivity |].
  destruct (accepted st); [| reflexivity].
  unfold checkResponse, throw, ret. cbn [response httpCode].
  destruct (truthy body); cbn [negb]; [| reflexivity].
  destruct (Z.eqb st 200); reflexivity.
Qed.

Lemma queryOrgInfo_run (type shortCode : JSValue) (s : State) :
  queryOrgInfo w type shortCode s =
  if js_is type "till" then
    exchange w standardKeys "sfcverify/v1/query/info"
      (JObj [("IdentifierType", JNum 2); ("Identifier", shortCode)]) s
  else if js_is type "paybill" then
    exchange w standardKeys "sfcverify/v1/query/info"
      (JObj [("IdentifierType", JNum 4); ("Identifier", shortCode)]) s
  else (Throw (MpesaException (JStr "Identifier type is not supported")), s).
Proof.
  unfold queryOrgInfo.
  destruct (js_is type "till"); [reflexivity |].
  destruct (js_is type "paybill"); reflexivity.
Qed.

Lemma generateQRCode_run (amount accountNumber size : JSValue) (s : State) :
  truthy amount = true ->
  exists payload : JSValue -> JSValue,
    generateQRCode w amount accountNumber size s =
    match queryOrgInfo w (shortCodeType (self s)) (businessShortCode (self s)) s
    with
    | (Return orgInfo, s1) =>
        exchange w standardKeys "mpesa/qrcode/v1/generate"
          (payload orgInfo) s1
    | (Throw e, s1) => (Throw e, s1)
    end.
Proof.
  intros E. unfold generateQRCode.
  rewrite (bind_require_true _ _ _ _ E), bind_getThis.
  eexists (fun orgInfo =>
             JObj [("MerchantName", getProp orgInfo "OrganizationName");
                   _; _; _; _; _]).
  unfold bind at 1. unfold getBusinessName. rewrite bind_getThis.
  unfold bind at 1.
  destruct (queryOrgInfo w (shortCodeType (self s))
              (businessShortCode (self s)) s) as [[orgInfo | e] s1];
    reflexivity.
Qed.

Ltac is_stamped :=
  unfold stamped, stampedEndpoints; cbn [In];
  intros [H | [H | [H | []]]]; try discriminate H; split; reflexivity.

Ltac one_exchange :=
  right; left; do 2 eexists;
  split; [unfold exchange; rewrite ?bind_getThis; reflexivity
         | split; [reflexivity | split; [reflexivity | is_stamped]]].

(** Every call of a business method either stops before the network, with
    the state as it was, or is one exchange with the network, at the
    endpoint of the method, or is [generateQRCode] past its guard. *)
Lemma invoke_cases (c : Call) (s : State) :
  (exists message,
      invoke w c s = (Throw (MpesaException (JStr message)), s))
  \/ (exists payload s0,
         invoke w c s = exchange w (messageKeys c) (endpointOf c) payload s0
         /\ self s0 = self s /\ log s0 = log s
         /\ stamped (self s) (endpointOf c) payload)
  \/ (exists amount accountNumber size,
         c = GenerateQRCode amount accountNumber size
         /\ truthy amount = true).
Proof.
  destruct c; cbn [invoke messageKeys endpointOf].
  - unfold stkPush. repeat at_guard; try (left; eexists; reflexivity).
    one_exchange.
  - rewrite queryOrgInfo_run.
    destruct (js_is type "till"); [one_exchange |].
    destruct (js_is type "paybill"); [one_exchange |].
    left; eexists; reflexivity.
  - destruct (truthy amount) eqn:E.
    + right; right; eauto.
    + left. unfold generateQRCode. rewrite (bind_require_false _ _ _ _ E).
      eexists; reflexivity.
  - unfold stkPushQuery. repeat at_guard; try (left; eexists; reflexivity).
    one_exchange.
  - unfold registerUrl. repeat at_guard; try (left; eexists; reflexivity).
    one_exchange.
  - unfold initiateB2C. repeat at_guard; try (left; eexists; reflexivity).
    one_exchange.
  - unfold transactionStatus.
    repeat at_guard; try (left; eexists; reflexivity).
    one_exchange.
  - unfold accountBalance.
    repeat at_guard; try (left; eexists; reflexivity).
    one_exchange.
  - unfold reverseTransaction.
    repeat at_guard; try (left; eexists; reflexivity).
    one_exchange.
  - unfold taxRemittance.
    repeat at_guard; try (left; eexists; reflexivity).
    one_exchange.
  - unfold initiateB2B. repeat at_guard; try (left; eexists; reflexivity).
    one_exchange.
  - unfold initiateB2BExpressCheckout.
    repeat at_guard; try (left; eexists; reflexivity).
    right; left; do 2 eexists.
    split; [unfold exchange, bind, Date_now, Math_random36, getThis;
            cbn [self log reads]; reflexivity
           | split; [reflexivity | split; [reflexivity | is_stamped]]].
  - unfold mpesaRatiba. repeat at_guard; try (left; eexists; reflexivity).
    one_exchange.
Qed.

(** *** Runs as traces *)

Lemma exchange_Exchange (keys : list string) (endpoint : string)
    (payload : JSValue) (s : State) :
  exists trace,
    snd (exchange w keys endpoint payload s) = issued s trace
    /\ Exchange w (self s) (log s) keys endpoint payload trace
         (fst (exchange w keys endpoint payload s)).
Proof.
  rewrite exchange_run. cbn [fst snd]. unfold exchanged.
  destruct (tokenFetch (http w (log s) (tokenRequest (self s))))
    as [m | token] eqn:E; eexists; (split; [reflexivity |]).
  - now apply Exchange_denied.
  - now apply Exchange_sent.
Qed.

Lemma two_exchanges_Run keys endpoint1 payload1 endpoint2
    (payload2 : JSValue -> JSValue) (s : State)
    (res : Outcome JSValue * State) :
  res = match exchange w keys endpoint1 payload1 s with
        | (Return a, s1) => exchange w keys endpoint2 (payload2 a) s1
        | (Throw e, s1) => (Throw e, s1)
        end ->
  exists trace,
    self (snd res) = self s
    /\ log (snd res) = (log s ++ trace)%list
    /\ Run w (self s) keys (log s) trace (fst res).
Proof.
  intros ->.
  destruct (exchange_Exchange keys endpoint1 payload1 s)
    as (tr1 & Es1 & Ex1).
  destruct (exchange w keys endpoint1 payload1 s)
    as [[a | e] s1]; cbn [fst snd] in *; subst s1.
  - destruct (exchange_Exchange keys endpoint2 (payload2 a) (issued s tr1))
      as (tr2 & Es2 & Ex2).
    exists (tr1 ++ tr2)%list. rewrite Es2. cbn [issued self log] in *.
    rewrite app_assoc. split; [reflexivity | split; [reflexivity |]].
    eapply Run_two; [exact Ex1 | exact Ex2].
  - exists tr1. cbn [issued self log].
    split; [reflexivity | split; [reflexivity |]].
    eapply Run_one; exact Ex1.
Qed.

(** Every call of a business method is a run: the object is left as it
    was, and the log grows by the trace of the run. *)
Lemma invoke_Run (c : Call) (s : State) :
  exists trace,
    self (snd (invoke w c s)) = self s
    /\ log (snd (invoke w c s)) = (log s ++ trace)%list
    /\ Run w (self s) (messageKeys c) (log s) trace (fst (invoke w c s)).
Proof.
  destruct (invoke_cases c s)
    as [[message E]
       | [(payload & s0 & E & Hself & Hlog & Hst)
         | (amount & accountNumber & size & -> & Ha)]].
  - exists []. rewrite E. cbn [fst snd]. rewrite app_nil_r.
    repeat split. apply Run_refused.
  - rewrite E.
    destruct (exchange_Exchange (messageKeys c) (endpointOf c) payload s0)
      as (tr & Es & Ex).
    exists tr. rewrite Es. cbn [issued self log].
    rewrite Hself, Hlog in *.
    split; [reflexivity | split; [reflexivity |]].
    now apply Run_one with (endpointOf c) payload.
  - cbn [invoke messageKeys].
    destruct (generateQRCode_run amount accountNumber size s Ha)
      as (payload & ->).
    rewrite queryOrgInfo_run.
    destruct (js_is (shortCodeType (self s)) "till");
      [eapply two_exchanges_Run; reflexivity |].
    destruct (js_is (shortCodeType (self s)) "paybill");
      [eapply two_exchanges_Run; reflexivity |].
    exists []. cbn [fst snd]. rewrite app_nil_r.
    split; [reflexivity | split; [reflexivity |]].
    apply Run_refused.
Qed.

(** *** What a trace tells about the result *)

Ltac split_trace H pre :=
  destruct pre as [| ? [| ? [| ? [| ? pre]]]]; cbn [app] in H;
  inversion H; subst; clear H;
  try match goal with
      | E : [] = (?l ++ _ :: _)%list |- _ => destruct l; discriminate E
      end.

Ltac not_that_method :=
  match goal with
  | H : method (tokenRequest _) = "post" |- _ => discriminate H
  | H : method (postRequest _ _ _ _) = "get" |- _ => discriminate H
  end.

Ltac clash :=
  match goal with
  | H1 : tokenFetch ?o = inl _, H2 : tokenFetch ?o = inr _ |- _ =>
      rewrite H1 in H2; discriminate H2
  | H1 : tokenFetch (http w (?b ++ [])%list ?r) = inl _,
    H2 : tokenFetch (http w ?b ?r) = inr _ |- _ =>
      rewrite app_nil_r in H1; rewrite H1 in H2; discriminate H2
  end.

(** A failed token fetch is the last request of its exchange, and the
    exchange ends with the authentication error. *)
Lemma Exchange_denied_last this before keys endpoint payload trace r
      pre req post underlying :
  Exchange w this before keys endpoint payload trace r ->
  trace = (pre ++ req :: post)%list ->
  method req = "get" ->
  tokenFetch (http w (before ++ pre)%list req) = inl underlying ->
  post = [] /\ r = Throw (authenticationError underlying).
Proof.
  intros Ex H Hm Hf.
  destruct Ex as [m Hd | token Hs]; split_trace H pre;
    try not_that_method; try clash.
  rewrite app_nil_r in Hf. rewrite Hf in Hd. injection Hd as <-.
  split; reflexivity.
Qed.

(** An exchange that ends with its POST ends with what the method makes of
    the answer to it. *)
Lemma Exchange_answered this before keys endpoint payload trace r pre req :
  Exchange w this before keys endpoint payload trace r ->
  trace = (pre ++ [req])%list ->
  method req = "post" ->
  r = answer keys (http w (before ++ pre)%list req).
Proof.
  intros Ex H Hm.
  destruct Ex as [m Hd | token Hs]; split_trace H pre;
    try not_that_method.
  reflexivity.
Qed.

(** An exchange that returns has sent its POST. *)
Lemma Exchange_returned this before keys endpoint payload trace a :
  Exchange w this before keys endpoint payload trace (Return a) ->
  exists token,
    tokenFetch (http w before (tokenRequest this)) = inr token
    /\ trace = [tokenRequest this; postRequest this token endpoint payload].
Proof.
  intros Ex. inversion Ex; subst. eauto.
Qed.

Lemma Run_denied_last this keys before trace r pre req post underlying :
  Run w this keys before trace r ->
  trace = (pre ++ req :: post)%list ->
  method req = "get" ->
  tokenFetch (http w (before ++ pre)%list req) = inl underlying ->
  post = [] /\ r = Throw (authenticationError underlying).
Proof.
  intros R H Hm Hf.
  destruct R as [message | ep d tr r Ex | e1 d1 tr1 a e2 d2 tr2 r Ex1 Ex2].
  - destruct pre; discriminate H.
  - eapply Exchange_denied_last; eauto.
  - destruct (Exchange_returned _ _ _ _ _ _ _ Ex1) as (token & Ht & ->).
    destruct pre as [| x1 [| x2 pre]]; cbn [app] in H.
    + injection H as <- _. rewrite app_nil_r in Hf.
      rewrite Hf in Ht. discriminate Ht.
    + injection H as _ <- _. discriminate Hm.
    + injection H as <- <- H.
      eapply Exchange_denied_last with (pre := pre); eauto.
      rewrite <- app_assoc. exact Hf.
Qed.

Lemma Run_answered this keys before trace r pre req :
  Run w this keys before trace r ->
  trace = (pre ++ [req])%list ->
  method req = "post" ->
  r = answer keys (http w (before ++ pre)%list req).
Proof.
  intros R H Hm.
  destruct R as [message | ep d tr r Ex | e1 d1 tr1 a e2 d2 tr2 r Ex1 Ex2].
  - destruct pre; discriminate H.
  - eapply Exchange_answered; eauto.
  - destruct (Exchange_returned _ _ _ _ _ _ _ Ex1) as (token & Ht & ->).
    destruct Ex2 as [m Hd | token2 Hs].
    + split_trace H pre. not_that_method.
    + split_trace H pre; try not_that_method.
      rewrite <- app_assoc. reflexivity.
Qed.

End Dispatch.

(** ** Phone numbers *)

(** C3.  For every phone number given, with [numberStr] its string form: a
    falsy input (empty string, 0, nothing) gives null; a string form of 9
    characters is returned with 254 in front; one of 10 characters loses its
    first character and gets 254 in front; one of any other length is
    returned as it is. *)
Theorem C3_formatPhoneNumber_rule (phoneNumber : JSValue) :
  let numberStr := js_toString phoneNumber in
  (truthy phoneNumber = false -> formatPhoneNumber phoneNumber = JNull)
  /\ (truthy phoneNumber = true -> String.length numberStr = 9%nat ->
      formatPhoneNumber phoneNumber = JStr ("254" ++ numberStr))
  /\ (truthy phoneNumber = true -> String.length numberStr = 10%nat ->
      exists first rest,
        numberStr = String first rest
        /\ formatPhoneNumber phoneNumber = JStr ("254" ++ rest))
  /\ (truthy phoneNumber = true -> String.length numberStr <> 9%nat ->
      String.length numberStr <> 10%nat ->
      formatPhoneNumber phoneNumber = JStr numberStr).
Proof.
  intros numberStr. unfold formatPhoneNumber. fold numberStr.
  repeat split.
  - intros ->. reflexivity.
  - intros -> ->. reflexivity.
  - intros -> H. rewrite H. cbn [negb Nat.eqb].
    destruct numberStr as [| first rest]; [discriminate H |].
    exists first, rest. split; reflexivity.
  - intros -> H9 H10. cbn [negb].
    apply Nat.eqb_neq in H9, H10. rewrite H9, H10.
    destruct (startsWith numberStr "254"); reflexivity.
Qed.

Lemma C3_witness :
  formatPhoneNumber (JStr "") = JNull
  /\ formatPhoneNumber (JNum 712345678) = JStr "254712345678"
  /\ (exists first rest,
         "0712345678" = String first rest
         /\ formatPhoneNumber (JStr "0712345678") = JStr ("254" ++ rest))
  /\ formatPhoneNumber (JStr "254712345678") = JStr "254712345678".
Proof.
  split; [| split; [| split]].
  - apply (C3_formatPhoneNumber_rule (JStr "")). reflexivity.
  - apply (C3_formatPhoneNumber_rule (JNum 712345678)); reflexivity.
  - apply (C3_formatPhoneNumber_rule (JStr "0712345678")); reflexivity.
  - apply (C3_formatPhoneNumber_rule (JStr "254712345678"));
      [reflexivity | cbn; lia | cbn; lia].
Defined.

(** ** Construction *)

Lemma firstMissing_Some (obj : JSValue) (keys : list string) (key : string) :
  firstMissing obj keys = Some key ->
  In key keys /\ truthy (getProp obj key) = false.
Proof.
  induction keys as [| k rest IH]; cbn [firstMissing]; [discriminate |].
  destruct (truthy (getProp obj k)) eqn:E; cbn [negb].
  - intros H. destruct (IH H). split; [right |]; assumption.
  - intros [= <-]. split; [left; reflexivity | assumption].
Qed.

Lemma firstMissing_None (obj : JSValue) (keys : list string) :
  firstMissing obj keys = None ->
  forall key, In key keys -> truthy (getProp obj key) = true.
Proof.
  induction keys as [| k rest IH]; cbn [firstMissing]; [intros _ ? [] |].
  destruct (truthy (getProp obj k)) eqn:E; cbn [negb]; [| discriminate].
  intros H key [<- | Hin]; [assumption | now apply IH].
Qed.

(** [validateConfig] passes exactly when every required field is truthy, and
    otherwise throws the configuration error that names a falsy one. *)
Lemma validateConfig_cases (config : MpesaConfig) :
  (validateConfig config = Return tt
   /\ forall f, In f requiredFields -> truthy (readField config f) = true)
  \/ (exists f,
         In f requiredFields /\ truthy (readField config f) = false
         /\ validateConfig config
            = Throw (MpesaException (JStr (missingFieldMessage f)))).
Proof.
  unfold validateConfig.
  destruct (firstMissing (JObj config) requiredKeys) as [k |] eqn:E1.
  { right. apply firstMissing_Some in E1 as [Hin Hf].
    exists (TopLevel k). unfold requiredFields.
    rewrite !in_app_iff, !in_map_iff. eauto 6. }
  destruct (firstMissing (lookup "credentials" config) requiredCredentials)
    as [k |] eqn:E2.
  { right. apply firstMissing_Some in E2 as [Hin Hf].
    exists (InCredentials k). unfold requiredFields.
    rewrite !in_app_iff, !in_map_iff. eauto 8. }
  destruct (firstMissing (lookup "appInfo" config) requiredAppInfo)
    as [k |] eqn:E3.
  { right. apply firstMissing_Some in E3 as [Hin Hf].
    exists (InAppInfo k). unfold requiredFields.
    rewrite !in_app_iff, !in_map_iff. eauto 8. }
  left. split; [reflexivity |].
  intros f. unfold requiredFields. rewrite !in_app_iff, !in_map_iff.
  intros [(k & <- & Hin) | [(k & <- & Hin) | (k & <- & Hin)]]; cbn [readField].
  - now apply (firstMissing_None _ _ E1).
  - now apply (firstMissing_None _ _ E2).
  - now apply (firstMissing_None _ _ E3).
Qed.

Lemma construct_cases (w : World) (tick : nat) (config : MpesaConfig) :
  (exists f,
      In f requiredFields /\ truthy (readField config f) = false
      /\ construct w tick config
         = Throw (MpesaException (JStr (missingFieldMessage f))))
  \/ ((forall f, In f requiredFields -> truthy (readField config f) = true)
      /\ construct w tick config
         = match generateSecurityCredential w (lookup "env" config)
                   (getProp (lookup "credentials" config) "initiatorPass")
           with
           | Throw e => Throw e
           | Return credential =>
               Return
                 (mkMpesa (lookup "env" config) (lookup "requester" config)
                    (timeStampOf (dateISO w tick))
                    (lookup "shortCodeType" config)
                    (getProp (lookup "credentials" config) "passKey")
                    (lookup "businessShortCode" config)
                    (if js_is (lookup "env" config) "production"
                     then "https://api.safaricom.co.ke"
                     else "https://sandbox.safaricom.co.ke")
                    (getProp (lookup "appInfo" config) "consumerSecret")
                    (getProp (lookup "credentials" config) "initiatorName")
                    (getProp (lookup "credentials" config) "initiatorPass")
                    (getProp (lookup "appInfo" config) "consumerKey")
                    (generatePassword (lookup "businessShortCode" config)
                       (getProp (lookup "credentials" config) "passKey")
                       (timeStampOf (dateISO w tick)))
                    credential)
           end).
Proof.
  unfold construct.
  destruct (validateConfig_cases config) as [[-> Hall] | (f & Hin & Hf & ->)].
  - right. split; [exact Hall | reflexivity].
  - left. exists f. auto.
Qed.

(** C2, as the code has it.  Construction fails with a configuration error
    exactly when a required field is falsy, that is absent or empty, and the
    error names such a field.  When every required field is truthy the
    outcome is that of loading the certificate and encrypting the initiator
    password: the error of fs or crypto (not a configuration error), or the
    constructed client. *)
Theorem C2_construction (w : World) (tick : nat) (config : MpesaConfig) :
  ((exists message,
       construct w tick config = Throw (MpesaException message))
   <-> (exists f, In f requiredFields /\ truthy (readField config f) = false))
  /\ (forall message,
         construct w tick config = Throw (MpesaException message) ->
         exists f,
           In f requiredFields /\ truthy (readField config f) = false
           /\ message = JStr (missingFieldMessage f))
  /\ ((forall f, In f requiredFields -> truthy (readField config f) = true) ->
      match publicEncrypt w
              (if js_is (lookup "env" config) "production"
               then ProductionCertificate else SandboxCertificate)
              (getProp (lookup "credentials" config) "initiatorPass")
      with
      | inl message => construct w tick config = Throw (SystemError message)
      | inr ciphertext =>
          exists c,
            construct w tick config = Return c
            /\ securityCredential c = ciphertext
      end).
Proof.
  destruct (construct_cases w tick config) as [(f & Hin & Hf & E) | [Hall E]].
  - split; [| split].
    + split; eauto.
    + rewrite E. intros message [= <-]. eauto.
    + intros Hall. rewrite (Hall f Hin) in Hf. discriminate Hf.
  - unfold generateSecurityCredential in E.
    split; [| split].
    + split.
      * intros [message H]. rewrite E in H.
        destruct (publicEncrypt _ _ _); discriminate H.
      * intros (f & Hin & Hf). rewrite (Hall f Hin) in Hf. discriminate Hf.
    + intros message H. rewrite E in H.
      destruct (publicEncrypt _ _ _); discriminate H.
    + intros _. destruct (publicEncrypt _ _ _) as [m | ct]; [exact E |].
      eexists. split; [exact E | reflexivity].
Qed.

Lemma C2_witness :
  exists c,
    construct (Sample.world Sample.tokenOK Sample.tokenOK) 0 Sample.config
    = Return c
    /\ securityCredential c = "Y2lwaGVydGV4dA==".
Proof.
  apply (C2_construction (Sample.world Sample.tokenOK Sample.tokenOK) 0
           Sample.config).
  intros f Hin. cbn in Hin.
  repeat (destruct Hin as [<- | Hin]; [reflexivity |]). destruct Hin.
Defined.

(** C2 as stated fails on the code twice over.  With every required field
    present and the requester an empty string, construction fails with a
    configuration error.  With every required field present and truthy and a
    certificate that cannot be read, no client is constructed. *)
Lemma C2_counterexample :
  (forall f, In f requiredFields ->
             readField Sample.blankRequester f <> JUndefined)
  /\ construct (Sample.world Sample.tokenOK Sample.tokenOK) 0
       Sample.blankRequester
     = Throw (MpesaException
                (JStr "Missing required configuration parameter: requester"))
  /\ (forall f, In f requiredFields ->
                truthy (readField Sample.config f) = true)
  /\ construct Sample.noCertificate 0 Sample.config
     = Throw (SystemError
                "ENOENT: no such file or directory, open 'SandboxCertificate.cer'").
Proof.
  split; [| split; [| split]].
  - intros f Hin. cbn in Hin.
    repeat (destruct Hin as [<- | Hin]; [discriminate |]). destruct Hin.
  - reflexivity.
  - intros f Hin. cbn in Hin.
    repeat (destruct Hin as [<- | Hin]; [reflexivity |]). destruct Hin.
  - reflexivity.
Qed.

Lemma construct_Return (w : World) (tick : nat) (config : MpesaConfig)
    (c : Mpesa) :
  construct w tick config = Return c ->
  timeStamp c = timeStampOf (dateISO w tick)
  /\ businessShortCode c = lookup "businessShortCode" config
  /\ passKey c = getProp (lookup "credentials" config) "passKey"
  /\ shortCodePassword c
     = Base64.encode (js_toString (businessShortCode c)
                      ++ js_toString (passKey c) ++ timeStamp c).
Proof.
  intros H.
  destruct (construct_cases w tick config) as [(f & _ & _ & E) | [_ E]];
    rewrite E in H; [discriminate H |].
  destruct (generateSecurityCredential _ _ _); [| discriminate H].
  injection H as <-. cbn [timeStamp businessShortCode passKey shortCodePassword].
  repeat split.
Qed.

(** C4.  For every client that construction returns, the timestamp is the
    one derived from the clock at construction, and the shortcode password
    is the base64 of the business shortcode, the pass key and that timestamp
    put end to end. *)
Theorem C4_password (w : World) (tick : nat) (config : MpesaConfig)
    (c : Mpesa) :
  construct w tick config = Return c ->
  timeStamp c = timeStampOf (dateISO w tick)
  /\ businessShortCode c = lookup "businessShortCode" config
  /\ passKey c = getProp (lookup "credentials" config) "passKey"
  /\ shortCodePassword c
     = Base64.encode (js_toString (businessShortCode c)
                      ++ js_toString (passKey c) ++ timeStamp c)
  /\ (forall shortCode key,
         businessShortCode c = JStr shortCode -> passKey c = JStr key ->
         shortCodePassword c
         = Base64.encode (shortCode ++ key ++ timeStampOf (dateISO w tick))).
Proof.
  intros H.
  destruct (construct_Return w tick config c H) as (Hts & Hsc & Hpk & Hpw).
  repeat (split; [assumption |]).
  intros shortCode key E1 E2. rewrite Hpw, E1, E2, Hts. reflexivity.
Qed.

Lemma C4_witness :
  timeStamp Sample.client = "20160216165627"
  /\ shortCodePassword Sample.client
     = Base64.encode
         ("174379"
          ++ "bfb279f9aa9bdbcf158e97dd71a467cd2e0c893059b10f78e6b72ada1ed2c919"
          ++ "20160216165627").
Proof.
  destruct (C4_password (Sample.world Sample.tokenOK (NetworkError "unused")) 0
              Sample.config Sample.client eq_refl)
    as (Hts & _ & _ & _ & Hpw).
  split; [exact Hts |].
  apply (Hpw "174379"
           "bfb279f9aa9bdbcf158e97dd71a467cd2e0c893059b10f78e6b72ada1ed2c919");
    reflexivity.
Defined.

(** ** Calls and the network *)

Lemma invoke_answered (w : World) (c : Call) (s : State)
    (pre : list Request) (req : Request) :
  log (snd (invoke w c s)) = (log s ++ pre ++ [req])%list ->
  method req = "post" ->
  fst (invoke w c s)
  = answer (messageKeys c) (http w (log s ++ pre)%list req).
Proof.
  intros Hlog Hm.
  destruct (invoke_Run w c s) as (tr & _ & E & R).
  rewrite E in Hlog. apply app_inv_head in Hlog.
  eapply Run_answered; eauto.
Qed.

Lemma invoke_denied (w : World) (c : Call) (s : State)
    (pre : list Request) (req : Request) (post : list Request)
    (underlying : string) :
  log (snd (invoke w c s)) = (log s ++ pre ++ req :: post)%list ->
  method req = "get" ->
  tokenFetch (http w (log s ++ pre)%list req) = inl underlying ->
  post = [] /\ fst (invoke w c s) = Throw (authenticationError underlying).
Proof.
  intros Hlog Hm Hf.
  destruct (invoke_Run w c s) as (tr & _ & E & R).
  rewrite E in Hlog. apply app_inv_head in Hlog.
  eapply Run_denied_last; eauto.
Qed.

(** C1, as the code has it.  Take a call of a business method whose last
    request is its POST, answered with [status] and [body].  When axios
    rejects the status (any status outside 200..299 other than 0) the
    dispatcher itself fails, with the first truthy of [body.errorMessage],
    [body.ResponseDescription] and the message of axios; so a 400 with body
    {ResponseMessage: "Invalid Amount"} fails with "Request failed with
    status code 400".  When axios accepts the status, the dispatcher returns
    the pair of body and status, and the calling method rejects a status
    other than 200 with the first truthy of the members it tries
    ([ResponseMessage] first, for the methods that try it) and the generic
    status message. *)
Theorem C1_rejected_status (w : World) (c : Call) (s : State)
    (pre : list Request) (req : Request) (status : Z) (body : JSValue) :
  log (snd (invoke w c s)) = (log s ++ pre ++ [req])%list ->
  method req = "post" ->
  http w (log s ++ pre)%list req = HttpResponse status body ->
  (accepted status = false ->
   fst (invoke w c s)
   = Throw (MpesaException
              (js_or (getProp body "errorMessage")
                 (js_or (getProp body "ResponseDescription")
                    (JStr ("Request failed with status code "
                           ++ decimal status))))))
  /\ (status = 400 ->
      body = JObj [("ResponseMessage", JStr "Invalid Amount")] ->
      fst (invoke w c s)
      = Throw (MpesaException (JStr "Request failed with status code 400")))
  /\ (accepted status = true -> truthy body = true -> status <> 200 ->
      fst (invoke w c s)
      = Throw (MpesaException (statusMessage (messageKeys c) status body)))
  /\ (forall endpoint payload s0 token status0 body0,
         tokenFetch (http w (log s0) (tokenRequest (self s0))) = inr token ->
         http w (log s0 ++ [tokenRequest (self s0)])%list
           (postRequest (self s0) token endpoint payload)
         = HttpResponse status0 body0 ->
         fst (sendRequest w endpoint payload s0)
         = if accepted status0 then Return (mkMpesaResponse body0 status0)
           else Throw (MpesaException
                         (js_or (getProp body0 "errorMessage")
                            (js_or (getProp body0 "ResponseDescription")
                               (JStr ("Request failed with status code "
                                      ++ decimal status0)))))).
Proof.
  intros Hlog Hm Hh.
  pose proof (invoke_answered w c s pre req Hlog Hm) as E.
  rewrite Hh in E. cbn [answer] in E.
  split; [| split; [| split]].
  - intros Ha. rewrite Ha in E. exact E.
  - intros -> ->. exact E.
  - intros Ha Hb Hs. rewrite Ha, Hb in E.
    apply Z.eqb_neq in Hs. rewrite Hs in E. exact E.
  - intros endpoint payload s0 token status0 body0 Ht Hp.
    rewrite sendRequest_run, Ht, Hp. reflexivity.
Qed.

Lemma C1_witness :
  fst (invoke (Sample.world Sample.tokenOK Sample.invalidAmount)
         Sample.push Sample.start)
  = Throw (MpesaException (JStr "Request failed with status code 400")).
Proof.
  apply (C1_rejected_status (Sample.world Sample.tokenOK Sample.invalidAmount)
           Sample.push Sample.start [tokenRequest Sample.client]
           Sample.pushPost 400
           (JObj [("ResponseMessage", JStr "Invalid Amount")]));
    reflexivity.
Defined.

(** C1 as stated fails on the code: the POST of [stkPush] is answered with
    HTTP 400 and body {ResponseMessage: "Invalid Amount"}, and the call
    fails with the message of axios, not with "Invalid Amount". *)
Lemma C1_counterexample :
  log (snd (invoke (Sample.world Sample.tokenOK Sample.invalidAmount)
              Sample.push Sample.start))
  = [tokenRequest Sample.client; Sample.pushPost]
  /\ http (Sample.world Sample.tokenOK Sample.invalidAmount)
       [tokenRequest Sample.client] Sample.pushPost
     = HttpResponse 400 (JObj [("ResponseMessage", JStr "Invalid Amount")])
  /\ fst (invoke (Sample.world Sample.tokenOK Sample.invalidAmount)
            Sample.push Sample.start)
     = Throw (MpesaException (JStr "Request failed with status code 400"))
  /\ fst (invoke (Sample.world Sample.tokenOK Sample.invalidAmount)
            Sample.push Sample.start)
     <> Throw (MpesaException (JStr "Invalid Amount"))
  /\ fst (sendRequest (Sample.world Sample.tokenOK Sample.invalidAmount)
            "mpesa/stkpush/v1/processrequest" (data Sample.pushPost)
            Sample.start)
     <> Return (mkMpesaResponse
                  (JObj [("ResponseMessage", JStr "Invalid Amount")]) 400).
Proof.
  split; [| split; [| split; [| split]]];
    try (vm_compute; reflexivity); vm_compute; discriminate.
Qed.

(** C7.  In every call of a business method, a token fetch that fails (a
    network error, a status axios rejects, a response without an access
    token) is the last request of the call: nothing is sent after it, so the
    business request it was for is never sent, and the call fails with
    "Failed to generate access token: " followed by the message of the
    underlying failure.  When it is the first request of the call ([pre]
    empty), the call sends no business request at all. *)
Theorem C7_token_failure (w : World) (c : Call) (s : State)
    (pre : list Request) (req : Request) (post : list Request)
    (underlying : string) :
  log (snd (invoke w c s)) = (log s ++ pre ++ req :: post)%list ->
  method req = "get" ->
  tokenFetch (http w (log s ++ pre)%list req) = inl underlying ->
  post = []
  /\ fst (invoke w c s)
     = Throw (MpesaException
                (JStr ("Failed to generate access token: " ++ underlying))).
Proof. apply invoke_denied. Qed.

Lemma C7_witness :
  @nil Request = []
  /\ fst (invoke (Sample.world Sample.refused Sample.invalidAmount)
            Sample.push Sample.start)
     = Throw (MpesaException
                (JStr ("Failed to generate access token: "
                       ++ "connect ECONNREFUSED 127.0.0.1:443"))).
Proof.
  apply (C7_token_failure (Sample.world Sample.refused Sample.invalidAmount)
           Sample.push Sample.start [] (tokenRequest Sample.client) []);
    reflexivity.
Defined.

(** C8, as the code has it.  Take a call of a business method whose last
    request is its POST.  When the answer is HTTP 200 with a truthy body
    (any body but null, undefined, false, 0, NaN and the empty string), the
    call returns exactly that body.  When axios accepts the status and the
    body is falsy, the call fails with "No response received". *)
Theorem C8_success_identity (w : World) (c : Call) (s : State)
    (pre : list Request) (req : Request) (status : Z) (body : JSValue) :
  log (snd (invoke w c s)) = (log s ++ pre ++ [req])%list ->
  method req = "post" ->
  http w (log s ++ pre)%list req = HttpResponse status body ->
  (status = 200 -> truthy body = true -> fst (invoke w c s) = Return body)
  /\ (accepted status = true -> truthy body = false ->
      fst (invoke w c s)
      = Throw (MpesaException (JStr "No response received"))).
Proof.
  intros Hlog Hm Hh.
  pose proof (invoke_answered w c s pre req Hlog Hm) as E.
  rewrite Hh in E. cbn [answer] in E.
  split.
  - intros -> Hb. rewrite Hb in E. exact E.
  - intros Ha Hb. rewrite Ha, Hb in E. exact E.
Qed.

Lemma C8_witness :
  fst (invoke (Sample.world Sample.tokenOK (HttpResponse 200 Sample.accepted))
         Sample.push Sample.start)
  = Return Sample.accepted
  /\ fst (invoke (Sample.world Sample.tokenOK (HttpResponse 200 (JStr "")))
            Sample.push Sample.start)
     = Throw (MpesaException (JStr "No response received")).
Proof.
  split.
  - apply (C8_success_identity
             (Sample.world Sample.tokenOK (HttpResponse 200 Sample.accepted))
             Sample.push Sample.start [tokenRequest Sample.client]
             Sample.pushPost 200 Sample.accepted); reflexivity.
  - apply (C8_success_identity
             (Sample.world Sample.tokenOK (HttpResponse 200 (JStr "")))
             Sample.push Sample.start [tokenRequest Sample.client]
             Sample.pushPost 200 (JStr "")); reflexivity.
Defined.

(** C8 as stated fails on the code: the POST of [stkPush] is answered with
    HTTP 200 and the body [false], a body that is present, and the call
    fails with "No response received" instead of returning it. *)
Lemma C8_counterexample :
  log (snd (invoke (Sample.world Sample.tokenOK
                      (HttpResponse 200 (JBool false)))
              Sample.push Sample.start))
  = [tokenRequest Sample.client; Sample.pushPost]
  /\ http (Sample.world Sample.tokenOK (HttpResponse 200 (JBool false)))
       [tokenRequest Sample.client] Sample.pushPost
     = HttpResponse 200 (JBool false)
  /\ fst (invoke (Sample.world Sample.tokenOK
                     (HttpResponse 200 (JBool false)))
            Sample.push Sample.start)
     = Throw (MpesaException (JStr "No response received"))
  /\ fst (invoke (Sample.world Sample.tokenOK
                     (HttpResponse 200 (JBool false)))
            Sample.push Sample.start)
     <> Return (JBool false).
Proof.
  split; [| split; [| split]];
    try (vm_compute; reflexivity); vm_compute; discriminate.
Qed.

(** ** Guards *)

Lemma js_is_false (v : JSValue) (s : string) :
  v <> JStr s -> js_is v s = false.
Proof.
  intros H. destruct v; try reflexivity. cbn.
  apply String.eqb_neq. intros ->. now apply H.
Qed.

(** C6, as the code has it.  For every business method: when one of the
    arguments the method tests is missing or falsy, the call fails with a
    message that ends in " is required" and the state is as it was before
    the call, so no request, token fetch or POST, has been issued. *)
Theorem C6_guards (w : World) (c : Call) (s : State) :
  (exists a, In a (checkedArguments c) /\ truthy a = false) ->
  exists message,
    invoke w c s = (Throw (MpesaException (JStr message)), s)
    /\ endsWith message " is required" = true.
Proof.
  intros (a & Hin & Hf).
  destruct c; cbn [checkedArguments] in Hin; cbn [invoke];
    unfold stkPush, generateQRCode, stkPushQuery, registerUrl, initiateB2C,
      transactionStatus, accountBalance, reverseTransaction, taxRemittance,
      initiateB2B, initiateB2BExpressCheckout, mpesaRatiba;
    try (destruct Hin; fail);
    repeat at_guard; try (eexists; split; reflexivity);
    exfalso; cbn [In] in Hin;
    repeat (destruct Hin as [<- | Hin]; [congruence |]); destruct Hin.
Qed.

Lemma C6_witness :
  exists message,
    invoke (Sample.world Sample.tokenOK (HttpResponse 200 Sample.accepted))
      (StkPush (JNum 100) JUndefined (JStr "INV-1")
         (JStr "https://example.com/callback") JUndefined)
      Sample.start
    = (Throw (MpesaException (JStr message)), Sample.start)
    /\ endsWith message " is required" = true.
Proof.
  apply (C6_guards
           (Sample.world Sample.tokenOK (HttpResponse 200 Sample.accepted))
           (StkPush (JNum 100) JUndefined (JStr "INV-1")
              (JStr "https://example.com/callback") JUndefined)
           Sample.start).
  exists JUndefined. split; [left; reflexivity | reflexivity].
Defined.

(** C6 as stated fails on the code: [registerUrl] called without its
    required [responseType] raises no error and issues the token fetch and
    the POST. *)
Lemma C6_counterexample :
  invoke (Sample.world Sample.tokenOK (HttpResponse 200 Sample.accepted))
    Sample.register Sample.start
  = (Return Sample.accepted,
     issued Sample.start
       [tokenRequest Sample.client;
        postRequest Sample.client (JStr "tok") "mpesa/c2b/v2/registerurl"
          (JObj [("ShortCode", JStr "174379");
                 ("ResponseType", JUndefined);
                 ("ConfirmationURL", JStr "https://example.com/confirm");
                 ("ValidationURL", JStr "https://example.com/validate")])]).
Proof. vm_compute. reflexivity. Qed.

(** ** The object after construction *)

Lemma getBusinessName_self (w : World) (s : State) :
  self (snd (getBusinessName w s)) = self s.
Proof.
  unfold getBusinessName. rewrite bind_getThis. unfold bind.
  rewrite queryOrgInfo_run.
  destruct (js_is (shortCodeType (self s)) "till");
    [rewrite exchange_run
    | destruct (js_is (shortCodeType (self s)) "paybill");
      [rewrite exchange_run | reflexivity]];
    match goal with
    | |- context [match ?o with Return _ => _ | Throw _ => _ end] =>
        destruct o; reflexivity
    end.
Qed.

Lemma invokePublic_self (w : World) (c : PublicCall) (s : State) :
  self (snd (invokePublic w c s)) = self s.
Proof.
  destruct c as [c |]; cbn [invokePublic].
  - destruct (invoke_Run w c s) as (tr & H & _). exact H.
  - apply getBusinessName_self.
Qed.

Lemma invokeAll_self (w : World) (calls : list PublicCall) (s : State) :
  self (snd (invokeAll w calls s)) = self s.
Proof.
  revert s. induction calls as [| c rest IH]; intros s; [reflexivity |].
  cbn [invokeAll].
  pose proof (invokePublic_self w c s) as H1.
  destruct (invokePublic w c s) as [r s1]. cbn [snd] in H1.
  pose proof (IH s1) as H2.
  destruct (invokeAll w rest s1) as [rs s2]. cbn [snd] in *.
  congruence.
Qed.

(** The POSTs of a call of [stkPush], [stkPushQuery] or [mpesaRatiba] carry
    the timestamp and the password of the object. *)
Lemma stamped_posts (w : World) (c : Call) (s : State)
    (trace : list Request) (r : Request) :
  sendsStamp (Business c) = true ->
  log (snd (invoke w c s)) = (log s ++ trace)%list ->
  In r trace -> method r = "post" ->
  getProp (data r) "Timestamp" = JStr (timeStamp (self s))
  /\ getProp (data r) "Password" = JStr (shortCodePassword (self s)).
Proof.
  intros Hc Hlog Hin Hm.
  destruct (invoke_cases w c s)
    as [[message E]
       | [(payload & s0 & E & Hself & Hl & Hst)
         | (amount & accountNumber & size & -> & Ha)]].
  - rewrite E in Hlog. cbn [snd] in Hlog.
    rewrite <- (app_nil_r (log s)) in Hlog at 1.
    apply app_inv_head in Hlog. subst trace. destruct Hin.
  - rewrite E, exchange_run in Hlog. cbn [snd issued log] in Hlog.
    rewrite Hl in Hlog. apply app_inv_head in Hlog. subst trace.
    unfold exchanged in Hin. rewrite Hself in Hin.
    destruct Hin as [<- | Hin]; [discriminate Hm |].
    destruct (tokenFetch _) as [m | token]; [destruct Hin |].
    destruct Hin as [<- | []]. cbn [data postRequest].
    apply Hst.
    destruct c; try discriminate Hc; cbn; tauto.
  - discriminate Hc.
Qed.

(** C9.  Let [c] be a constructed client and let any public calls [before]
    be issued on it, then one more, [call].  The object is [c] after the
    calls before and after the last call: no field of the configuration or
    of the derived secrets has changed.  And when the last call is
    [stkPush], [stkPushQuery] or [mpesaRatiba], every POST it issues carries
    as [Timestamp] the timestamp taken at construction and as [Password] the
    password derived from it, whatever the clock shows by then. *)
Theorem C9_frozen_secrets (w : World) (tick : nat) (config : MpesaConfig)
    (c : Mpesa) (s : State) (before : list PublicCall) (call : PublicCall) :
  construct w tick config = Return c ->
  self s = c ->
  let s1 := snd (invokeAll w before s) in
  let s2 := snd (invokePublic w call s1) in
  self s1 = c
  /\ self s2 = c
  /\ (sendsStamp call = true ->
      forall trace r,
        log s2 = (log s1 ++ trace)%list ->
        In r trace -> method r = "post" ->
        getProp (data r) "Timestamp" = JStr (timeStampOf (dateISO w tick))
        /\ getProp (data r) "Password"
           = JStr (Base64.encode
                     (js_toString (lookup "businessShortCode" config)
                      ++ js_toString
                           (getProp (lookup "credentials" config) "passKey")
                      ++ timeStampOf (dateISO w tick)))).
Proof.
  intros Hc Hs s1 s2.
  assert (H1 : self s1 = c).
  { unfold s1. rewrite invokeAll_self. exact Hs. }
  assert (H2 : self s2 = c).
  { unfold s2. rewrite invokePublic_self. exact H1. }
  split; [exact H1 | split; [exact H2 |]].
  intros Hst trace r Hlog Hin Hm.
  destruct call as [b |]; [| discriminate Hst].
  destruct (stamped_posts w b s1 trace r Hst Hlog Hin Hm) as [Et Ep].
  destruct (construct_Return w tick config c Hc) as (Hts & Hsc & Hpk & Hpw).
  rewrite Et, Ep, H1, Hpw, Hts, Hsc, Hpk. split; reflexivity.
Qed.

Lemma C9_witness :
  getProp (data Sample.pushPost) "Timestamp" = JStr "20160216165627"
  /\ getProp (data Sample.pushPost) "Password"
     = JStr (Base64.encode
               ("174379"
                ++ "bfb279f9aa9bdbcf158e97dd71a467cd2e0c893059b10f78e6b72ada1ed2c919"
                ++ "20160216165627")).
Proof.
  destruct (C9_frozen_secrets
              (Sample.world Sample.tokenOK (HttpResponse 200 Sample.accepted))
              0 Sample.config Sample.client Sample.start
              [GetBusinessName; Business Sample.register]
              (Business Sample.push) eq_refl eq_refl) as (_ & _ & H).
  apply (H eq_refl [tokenRequest Sample.client; Sample.pushPost]
           Sample.pushPost).
  - vm_compute. reflexivity.
  - right. left. reflexivity.
  - reflexivity.
Defined.

(** ** More on construction *)

Lemma keep_digits_onlyDigits (s : string) : onlyDigits (keep_digits s) = true.
Proof.
  induction s as [| c rest IH]; [reflexivity |]. cbn [keep_digits].
  destruct (is_digit c) eqn:E; [| exact IH].
  cbn [onlyDigits]. rewrite E. exact IH.
Qed.

Lemma keep_digits_length (s : string) :
  String.length (keep_digits s) = countDigits s.
Proof.
  induction s as [| c rest IH]; [reflexivity |]. cbn [keep_digits countDigits].
  destruct (is_digit c); cbn [String.length]; congruence.
Qed.

Lemma js_slice0_onlyDigits (n : nat) (s : string) :
  onlyDigits s = true -> onlyDigits (js_slice0 n s) = true.
Proof.
  revert s. induction n as [| n IH]; intros [| c rest]; try reflexivity.
  cbn [onlyDigits js_slice0]. intros H.
  apply andb_true_iff in H as [Hc Hr]. rewrite Hc. now apply IH.
Qed.

Lemma js_slice0_length (n : nat) (s : string) :
  String.length (js_slice0 n s) = Nat.min n (String.length s).
Proof.
  revert s. induction n as [| n IH]; intros [| c rest]; try reflexivity.
  cbn [js_slice0 String.length Nat.min]. now rewrite IH.
Qed.

(** The timestamp of a constructed client holds decimal digits only, and
    as many as the clock's string has, up to 14. *)
Theorem timeStamp_digits (w : World) (tick : nat) (config : MpesaConfig)
    (c : Mpesa) :
  construct w tick config = Return c ->
  onlyDigits (timeStamp c) = true
  /\ String.length (timeStamp c) = Nat.min 14 (countDigits (dateISO w tick)).
Proof.
  intros H. destruct (construct_Return w tick config c H) as (-> & _).
  unfold timeStampOf. split.
  - apply js_slice0_onlyDigits, keep_digits_onlyDigits.
  - rewrite js_slice0_length, keep_digits_length. reflexivity.
Qed.

Lemma timeStamp_digits_witness :
  onlyDigits (timeStamp Sample.client) = true
  /\ String.length (timeStamp Sample.client) = 14%nat.
Proof.
  apply (timeStamp_digits (Sample.world Sample.tokenOK (NetworkError "unused"))
           0 Sample.config Sample.client).
  reflexivity.
Defined.

(** The environment decides the base URL and the certificate together: the
    production pair exactly when [env] is the string "production", the
    sandbox pair for every other value that passes validation. *)
Theorem environment_selects (w : World) (tick : nat) (config : MpesaConfig)
    (c : Mpesa) :
  construct w tick config = Return c ->
  (lookup "env" config = JStr "production" ->
   baseUrl c = "https://api.safaricom.co.ke"
   /\ publicEncrypt w ProductionCertificate (initiatorPass c)
      = inr (securityCredential c))
  /\ (lookup "env" config <> JStr "production" ->
      baseUrl c = "https://sandbox.safaricom.co.ke"
      /\ publicEncrypt w SandboxCertificate (initiatorPass c)
         = inr (securityCredential c)).
Proof.
  intros H.
  destruct (construct_cases w tick config) as [(f & _ & _ & E) | [_ E]];
    rewrite E in H; [discriminate H |].
  unfold generateSecurityCredential in H.
  split.
  - intros Henv. rewrite Henv in H. cbn [js_is String.eqb Ascii.eqb Bool.eqb] in H.
    change (js_is (JStr "production") "production") with true in H.
    cbv iota in H.
    destruct (publicEncrypt w ProductionCertificate _) eqn:Ep;
      [discriminate H |].
    injection H as <-. cbn [baseUrl initiatorPass securityCredential].
    split; [reflexivity | exact Ep].
  - intros Henv. rewrite (js_is_false _ _ Henv) in H.
    destruct (publicEncrypt w SandboxCertificate _) eqn:Ep;
      [discriminate H |].
    injection H as <-. cbn [baseUrl initiatorPass securityCredential].
    split; [reflexivity | exact Ep].
Qed.

Lemma environment_selects_witness :
  baseUrl Sample.misspelt = "https://sandbox.safaricom.co.ke"
  /\ publicEncrypt Sample.twoCertificates SandboxCertificate
       (initiatorPass Sample.misspelt)
     = inr (securityCredential Sample.misspelt).
Proof.
  apply (environment_selects Sample.twoCertificates 0 Sample.misspeltEnv
           Sample.misspelt eq_refl).
  discriminate.
Defined.

Lemma firstMissing_split (obj : JSValue) (keys : list string) (key : string) :
  firstMissing obj keys = Some key ->
  exists pre post,
    keys = (pre ++ key :: post)%list
    /\ (forall k, In k pre -> truthy (getProp obj k) = true)
    /\ truthy (getProp obj key) = false.
Proof.
  induction keys as [| k rest IH]; cbn [firstMissing]; [discriminate |].
  destruct (truthy (getProp obj k)) eqn:E; cbn [negb].
  - intros H. destruct (IH H) as (pre & post & -> & Hpre & Hk).
    exists (k :: pre), post. split; [reflexivity | split; [| exact Hk]].
    intros k' [<- | Hin]; [exact E | now apply Hpre].
  - intros [= <-]. exists [], rest. split; [reflexivity | split; [| exact E]].
    intros k' [].
Qed.

(** The configuration error names the first falsy field in the order of the
    checks: the six top-level keys, then the three credentials, then the two
    keys of the application. *)
Theorem validation_names_first (w : World) (tick : nat) (config : MpesaConfig)
    (message : JSValue) :
  construct w tick config = Throw (MpesaException message) ->
  exists before f after,
    requiredFields = (before ++ f :: after)%list
    /\ (forall g, In g before -> truthy (readField config g) = true)
    /\ truthy (readField config f) = false
    /\ message = JStr (missingFieldMessage f).
Proof.
  unfold construct, validateConfig, requiredFields.
  destruct (firstMissing (JObj config) requiredKeys) as [k |] eqn:E1.
  { intros [= <-].
    destruct (firstMissing_split _ _ _ E1) as (pre & post & -> & Hpre & Hk).
    exists (List.map TopLevel pre), (TopLevel k),
      (List.map TopLevel post ++ List.map InCredentials requiredCredentials
       ++ List.map InAppInfo requiredAppInfo)%list.
    split; [| split; [| split; [exact Hk | reflexivity]]].
    - rewrite map_app. cbn [List.map]. rewrite <- app_assoc. reflexivity.
    - intros g Hg. apply in_map_iff in Hg as (k' & <- & Hin).
      now apply Hpre. }
  pose proof (firstMissing_None _ _ E1) as H1.
  destruct (firstMissing (lookup "credentials" config) requiredCredentials)
    as [k |] eqn:E2.
  { intros [= <-].
    destruct (firstMissing_split _ _ _ E2) as (pre & post & -> & Hpre & Hk).
    exists (List.map TopLevel requiredKeys ++ List.map InCredentials pre)%list,
      (InCredentials k),
      (List.map InCredentials post ++ List.map InAppInfo requiredAppInfo)%list.
    split; [| split; [| split; [exact Hk | reflexivity]]].
    - rewrite map_app. cbn [List.map]. rewrite <- !app_assoc. reflexivity.
    - intros g Hg. apply in_app_iff in Hg as [Hg | Hg];
        apply in_map_iff in Hg as (k' & <- & Hin);
        [now apply H1 | now apply Hpre]. }
  pose proof (firstMissing_None _ _ E2) as H2.
  destruct (firstMissing (lookup "appInfo" config) requiredAppInfo)
    as [k |] eqn:E3.
  { intros [= <-].
    destruct (firstMissing_split _ _ _ E3) as (pre & post & -> & Hpre & Hk).
    exists (List.map TopLevel requiredKeys
            ++ List.map InCredentials requiredCredentials
            ++ List.map InAppInfo pre)%list,
      (InAppInfo k), (List.map InAppInfo post).
    split; [| split; [| split; [exact Hk | reflexivity]]].
    - rewrite map_app. cbn [List.map]. rewrite <- !app_assoc. reflexivity.
    - intros g Hg. rewrite !in_app_iff in Hg.
      destruct Hg as [Hg | [Hg | Hg]];
        apply in_map_iff in Hg as (k' & <- & Hin);
        [now apply H1 | now apply H2 | now apply Hpre]. }
  unfold generateSecurityCredential.
  destruct (publicEncrypt _ _ _); discriminate.
Qed.

Lemma validation_names_first_witness :
  exists before f after,
    requiredFields = (before ++ f :: after)%list
    /\ (forall g, In g before ->
                  truthy (readField Sample.twoMissing g) = true)
    /\ truthy (readField Sample.twoMissing f) = false
    /\ JStr "Missing required credentials parameter: passKey"
       = JStr (missingFieldMessage f).
Proof.
  apply (validation_names_first Sample.everythingOK 0 Sample.twoMissing).
  reflexivity.
Defined.

(** ** The password can be read back *)

Module Base64Facts.

Import Base64 Base64Decode.

Lemma belowN_In (k : nat) (n : N) : (n < N.of_nat k)%N -> In n (belowN k).
Proof.
  intros H. unfold belowN. apply in_map_iff.
  exists (N.to_nat n). split; [apply N2Nat.id |].
  apply in_seq. lia.
Qed.

Lemma value_sextet (n : N) : (n < 64)%N -> value (sextet n) = Some n.
Proof.
  intros H.
  assert (A : forallb (fun m => match value (sextet m) with
                                | Some v => N.eqb v m
                                | None => false
                                end) (belowN 64) = true)
    by (vm_compute; reflexivity).
  rewrite forallb_forall in A. specialize (A n (belowN_In 64 n H)).
  destruct (value (sextet n)) as [v |]; [| discriminate A].
  apply N.eqb_eq in A. now subst.
Qed.

Lemma pairs_ok (f : N -> N -> bool) :
  forallb (fun a => forallb (f a) (belowN 256)) (belowN 256) = true ->
  forall a b, (a < 256)%N -> (b < 256)%N -> f a b = true.
Proof.
  intros A a b Ha Hb. rewrite forallb_forall in A.
  specialize (A a (belowN_In 256 a Ha)). rewrite forallb_forall in A.
  exact (A b (belowN_In 256 b Hb)).
Qed.

Lemma head_ok_all (a b : N) : (a < 256)%N -> (b < 256)%N -> head_ok a b = true.
Proof. apply pairs_ok. vm_compute. reflexivity. Qed.

Lemma tail_ok_all (b c : N) : (b < 256)%N -> (c < 256)%N -> tail_ok b c = true.
Proof. apply pairs_ok. vm_compute. reflexivity. Qed.

Lemma head_facts (a b : N) :
  (a < 256)%N -> (b < 256)%N ->
  let s1 := N.shiftr a 2 in
  let s2 := N.lor (N.shiftl (N.land a 3) 4) (N.shiftr b 4) in
  (s1 < 64)%N /\ (s2 < 64)%N
  /\ N.lor (N.shiftl s1 2) (N.shiftr s2 4) = a
  /\ N.land s2 15 = N.shiftr b 4.
Proof.
  intros Ha Hb. pose proof (head_ok_all a b Ha Hb) as H.
  unfold head_ok in H. rewrite !andb_true_iff in H.
  destruct H as [[[H1 H2] H3] H4].
  apply N.ltb_lt in H1, H2. apply N.eqb_eq in H3, H4. auto.
Qed.

Lemma tail_facts (b c : N) :
  (b < 256)%N -> (c < 256)%N ->
  let s3 := N.lor (N.shiftl (N.land b 15) 2) (N.shiftr c 6) in
  let s4 := N.land c 63 in
  (s3 < 64)%N /\ (s4 < 64)%N
  /\ N.lor (N.shiftl (N.shiftr b 4) 4) (N.shiftr s3 2) = b
  /\ N.lor (N.shiftl (N.land s3 3) 6) s4 = c.
Proof.
  intros Hb Hc. pose proof (tail_ok_all b c Hb Hc) as H.
  unfold tail_ok in H. rewrite !andb_true_iff in H.
  destruct H as [[[H1 H2] H3] H4].
  apply N.ltb_lt in H1, H2. apply N.eqb_eq in H3, H4. auto.
Qed.

Lemma by_threes {A} (P : list A -> Prop) :
  P [] -> (forall a, P [a]) -> (forall a b, P [a; b]) ->
  (forall a b c l, P l -> P (a :: b :: c :: l)) ->
  forall l, P l.
Proof.
  intros H0 H1 H2 H3. fix IH 1.
  intros [| a [| b [| c l]]];
    [exact H0 | apply H1 | apply H2 | apply H3; apply IH].
Qed.

End Base64Facts.

Lemma decode_encode_bytes (bs : list N) :
  Forall (fun b => (b < 256)%N) bs ->
  Base64Decode.decode (Base64.encode_bytes bs) = Some bs.
Proof.
  induction bs as [| a | a b | a b c l IH] using Base64Facts.by_threes;
    intros H.
  - reflexivity.
  - inversion_clear H as [| ? ? Ha _].
    destruct (Base64Facts.head_facts a 0 Ha eq_refl) as (H1 & H2 & H3 & _).
    change (N.shiftr 0 4) with 0%N in H2, H3. rewrite N.lor_0_r in H2, H3.
    cbn [Base64.encode_bytes Base64Decode.decode].
    rewrite (Base64Facts.value_sextet _ H1), (Base64Facts.value_sextet _ H2).
    change (Base64Decode.value "=") with (@None N). cbv iota.
    change (("=" =? "=")%char) with true. cbn [andb]. now rewrite H3.
  - inversion_clear H as [| ? ? Ha H']. inversion_clear H' as [| ? ? Hb _].
    destruct (Base64Facts.head_facts a b Ha Hb) as (H1 & H2 & H3 & H4).
    destruct (Base64Facts.tail_facts b 0 Hb eq_refl) as (H5 & _ & H6 & _).
    change (N.shiftr 0 6) with 0%N in H5, H6. rewrite N.lor_0_r in H5, H6.
    cbn [Base64.encode_bytes Base64Decode.decode].
    rewrite (Base64Facts.value_sextet _ H1), (Base64Facts.value_sextet _ H2),
      (Base64Facts.value_sextet _ H5).
    change (Base64Decode.value "=") with (@None N). cbv iota zeta.
    change (("=" =? "=")%char) with true. cbv iota.
    rewrite H3, H4, H6. reflexivity.
  - inversion_clear H as [| ? ? Ha H']. inversion_clear H' as [| ? ? Hb H''].
    inversion_clear H'' as [| ? ? Hc Hl].
    destruct (Base64Facts.head_facts a b Ha Hb) as (H1 & H2 & H3 & H4).
    destruct (Base64Facts.tail_facts b c Hb Hc) as (H5 & H6 & H7 & H8).
    cbn [Base64.encode_bytes Base64Decode.decode].
    rewrite (Base64Facts.value_sextet _ H1), (Base64Facts.value_sextet _ H2),
      (Base64Facts.value_sextet _ H5), (Base64Facts.value_sextet _ H6).
    cbv zeta. rewrite (IH Hl), H3, H4, H7, H8. reflexivity.
Qed.

Lemma bytes_bounded (s : string) :
  Forall (fun b => (b < 256)%N) (Base64.bytes s).
Proof.
  unfold Base64.bytes. apply Forall_forall. intros b Hin.
  apply in_map_iff in Hin as (c & <- & _). apply N_ascii_bounded.
Qed.

Lemma bytes_injective (s1 s2 : string) :
  Base64.bytes s1 = Base64.bytes s2 -> s1 = s2.
Proof.
  unfold Base64.bytes. intros H.
  apply (f_equal (List.map ascii_of_N)) in H.
  assert (E : forall l, List.map ascii_of_N (List.map N_of_ascii l) = l).
  { induction l as [| c l IH]; [reflexivity |].
    cbn [List.map]. now rewrite ascii_N_embedding, IH. }
  rewrite !E in H.
  apply (f_equal string_of_list_ascii) in H.
  now rewrite !string_of_list_ascii_of_string in H.
Qed.

(** The shortcode password is only an encoding: reading the base64 back
    gives the bytes of shortcode, pass key and timestamp put end to end, so
    two clients with the same password have the same such string. *)
Theorem password_reads_back (w : World) (tick : nat) (config : MpesaConfig)
    (c : Mpesa) :
  construct w tick config = Return c ->
  Base64Decode.decode (shortCodePassword c)
  = Some (Base64.bytes (js_toString (businessShortCode c)
                        ++ js_toString (passKey c) ++ timeStamp c))
  /\ (forall w' tick' config' c',
         construct w' tick' config' = Return c' ->
         shortCodePassword c = shortCodePassword c' ->
         js_toString (businessShortCode c) ++ js_toString (passKey c)
         ++ timeStamp c
         = js_toString (businessShortCode c') ++ js_toString (passKey c')
           ++ timeStamp c').
Proof.
  intros H.
  destruct (construct_Return w tick config c H) as (_ & _ & _ & Hpw).
  assert (D : forall s, Base64Decode.decode (Base64.encode s)
                        = Some (Base64.bytes s)).
  { intros s. apply decode_encode_bytes, bytes_bounded. }
  split.
  - rewrite Hpw. apply D.
  - intros w' tick' config' c' H' E.
    destruct (construct_Return w' tick' config' c' H') as (_ & _ & _ & Hpw').
    rewrite Hpw, Hpw' in E. apply (f_equal Base64Decode.decode) in E.
    rewrite !D in E. injection E as E. now apply bytes_injective.
Qed.

Lemma password_reads_back_witness :
  Base64Decode.decode (shortCodePassword Sample.client)
  = Some (Base64.bytes
            ("174379"
             ++ "bfb279f9aa9bdbcf158e97dd71a467cd2e0c893059b10f78e6b72ada1ed2c919"
             ++ "20160216165627")).
Proof.
  apply (password_reads_back
           (Sample.world Sample.tokenOK (NetworkError "unused")) 0
           Sample.config Sample.client eq_refl).
Defined.

(** ** What the calls send *)

Lemma skipn_length_app {A} (l t : list A) :
  skipn (List.length l) (l ++ t)%list = t.
Proof. induction l as [| x l IH]; [reflexivity | exact IH]. Qed.

Lemma log_sent (w : World) (c : Call) (s : State) :
  log (snd (invoke w c s)) = (log s ++ sent w c s)%list.
Proof.
  unfold sent. destruct (invoke_Run w c s) as (tr & _ & E & _).
  rewrite E. now rewrite skipn_length_app.
Qed.

Lemma sent_Run (w : World) (c : Call) (s : State) :
  Run w (self s) (messageKeys c) (log s) (sent w c s) (fst (invoke w c s)).
Proof.
  unfold sent. destruct (invoke_Run w c s) as (tr & _ & E & R).
  rewrite E, skipn_length_app. exact R.
Qed.

Lemma sent_refused (w : World) (c : Call) (s : State) (r : Outcome JSValue) :
  invoke w c s = (r, s) -> sent w c s = [].
Proof.
  intros E. unfold sent. rewrite E. cbn [snd].
  rewrite <- (app_nil_r (log s)) at 2. apply skipn_length_app.
Qed.

Lemma sent_exchange (w : World) (c : Call) (s s0 : State) keys endpoint
    payload :
  invoke w c s = exchange w keys endpoint payload s0 ->
  self s0 = self s -> log s0 = log s ->
  sent w c s = exchanged w endpoint payload s.
Proof.
  intros E Hself Hlog. unfold sent. rewrite E, exchange_run.
  cbn [snd issued log]. rewrite Hlog, skipn_length_app.
  unfold exchanged. now rewrite Hself, Hlog.
Qed.

Lemma exchanged_post (w : World) (endpoint : string) (payload : JSValue)
    (s : State) (r : Request) :
  In r (exchanged w endpoint payload s) -> method r = "post" ->
  exists token,
    tokenFetch (http w (log s) (tokenRequest (self s))) = inr token
    /\ r = postRequest (self s) token endpoint payload.
Proof.
  unfold exchanged. intros [<- | Hin] Hm; [discriminate Hm |].
  destruct (tokenFetch _) as [m | token]; [destruct Hin |].
  destruct Hin as [<- | []]. eauto.
Qed.

(** Brings a call to the exchange it makes, or to the guard it stops at. *)
Ltac reach_exchange :=
  cbn [invoke];
  unfold stkPush, stkPushQuery, registerUrl, initiateB2C, transactionStatus,
    accountBalance, reverseTransaction, taxRemittance, initiateB2B,
    initiateB2BExpressCheckout, mpesaRatiba;
  repeat at_guard; rewrite ?bind_getThis.

(** The payload of the POST of a call with one exchange. *)
Ltac payload_of Hin Hm :=
  unfold sent in Hin; revert Hin; reach_exchange;
  [ .. | intros Hin ];
  try (cbn [snd]; rewrite <- (app_nil_r (log _)) at 2;
       rewrite skipn_length_app; intros []);
  match type of Hin with
  | In _ (skipn _ (log (snd (?m ?s)))) =>
      change m with (exchange _ _ _ _) in Hin
  end.

Lemma posted (w : World) (keys : list string) (endpoint : string)
    (payload : JSValue) (s0 : State) (n : nat) (r : Request) :
  In r (skipn n
          (log (snd ((response <- sendRequest w endpoint payload ;;
                      checkResponse keys response) s0)))) ->
  n = List.length (log s0) ->
  method r = "post" ->
  exists token,
    tokenFetch (http w (log s0) (tokenRequest (self s0))) = inr token
    /\ r = postRequest (self s0) token endpoint payload.
Proof.
  intros Hin -> Hm.
  change (In r (skipn (List.length (log s0))
                  (log (snd (exchange w keys endpoint payload s0))))) in Hin.
  rewrite exchange_run in Hin. cbn [snd issued log] in Hin.
  rewrite skipn_length_app in Hin.
  now apply exchanged_post.
Qed.

(** A call that stopped at a guard has sent nothing. *)
Ltac nothing_sent :=
  try (cbn [snd];
       match goal with
       | |- In _ (skipn _ (log ?s)) -> _ =>
           rewrite <- (app_nil_r (log s)) at 2;
           rewrite skipn_length_app; intros []
       end).

(** From a POST among the requests a call sent to the payload the call built
    for it. *)
Ltac its_payload Hin Hm :=
  unfold sent in Hin; revert Hin; reach_exchange; nothing_sent;
  let token := fresh "token" in
  let Ht := fresh "Ht" in
  intros Hin;
  destruct (posted _ _ _ _ _ _ _ Hin eq_refl Hm) as (token & Ht & ->);
  cbn [data postRequest].

Lemma js_or_orDefault_null (q r : JSValue) :
  js_or (orDefault q JNull) r = if truthy q then q else r.
Proof. destruct q; reflexivity. Qed.

(** In the six calls that take them, the POST carries the result URL as
    given, and as queue timeout URL the one given when it is truthy and the
    result URL otherwise (nothing, null and the empty string all fall back
    to the result URL). *)
Theorem queueTimeout_default (w : World) (c : Call) (s : State)
    (resultUrl queueTimeoutUrl : JSValue) (r : Request) :
  resultUrls c = Some (resultUrl, queueTimeoutUrl) ->
  In r (sent w c s) -> method r = "post" ->
  getProp (data r) "ResultURL" = resultUrl
  /\ getProp (data r) "QueueTimeOutURL"
     = (if truthy queueTimeoutUrl then queueTimeoutUrl else resultUrl).
Proof.
  intros Hc Hin Hm.
  destruct c; try discriminate Hc; injection Hc as -> ->;
    its_payload Hin Hm;
    (split; [reflexivity | apply js_or_orDefault_null]).
Qed.

Lemma queueTimeout_default_witness :
  getProp
    (data (Sample.secondSent Sample.everythingOK
             (AccountBalance (JStr "https://example.com/result") JNull)))
    "ResultURL"
  = JStr "https://example.com/result"
  /\ getProp
       (data (Sample.secondSent Sample.everythingOK
                (AccountBalance (JStr "https://example.com/result") JNull)))
       "QueueTimeOutURL"
     = JStr "https://example.com/result".
Proof.
  apply (queueTimeout_default Sample.everythingOK
           (AccountBalance (JStr "https://example.com/result") JNull)
           Sample.start (JStr "https://example.com/result") JNull
           (Sample.secondSent Sample.everythingOK
              (AccountBalance (JStr "https://example.com/result") JNull))
           eq_refl).
  - vm_compute. right. left. reflexivity.
  - reflexivity.
Defined.

(** In [transactionStatus], [accountBalance] and [mpesaRatiba] a client
    whose [shortCodeType] is exactly "paybill" is sent as kind "4", and a
    client with any other [shortCodeType] as kind "2". *)
Theorem shortCodeType_kind (w : World) (c : Call) (s : State) (key : string)
    (r : Request) :
  identifierKey c = Some key ->
  In r (sent w c s) -> method r = "post" ->
  getProp (data r) key
  = JStr (if js_is (shortCodeType (self s)) "paybill" then "4" else "2").
Proof.
  intros Hc Hin Hm.
  destruct c; try discriminate Hc; injection Hc as <-;
    its_payload Hin Hm; cbn;
    destruct (js_is (shortCodeType (self s)) "paybill"); reflexivity.
Qed.

Lemma shortCodeType_kind_witness :
  getProp
    (data (nth 1 (sent Sample.twoCertificates
                    (AccountBalance (JStr "https://example.com/result") JNull)
                    Sample.startMisspelt)
             (tokenRequest Sample.misspelt)))
    "IdentifierType"
  = JStr "2".
Proof.
  apply (shortCodeType_kind Sample.twoCertificates
           (AccountBalance (JStr "https://example.com/result") JNull)
           Sample.startMisspelt "IdentifierType"
           (nth 1 (sent Sample.twoCertificates
                     (AccountBalance (JStr "https://example.com/result") JNull)
                     Sample.startMisspelt)
              (tokenRequest Sample.misspelt))
           eq_refl).
  - vm_compute. right. left. reflexivity.
  - reflexivity.
Defined.

(** Construction accepts any truthy [shortCodeType]; on a client whose
    [shortCodeType] is neither "till" nor "paybill", [getBusinessName] and
    [generateQRCode] fail with "Identifier type is not supported" and issue
    no request. *)
Theorem unsupported_shortCodeType (w : World) (s : State) :
  shortCodeType (self s) <> JStr "till" ->
  shortCodeType (self s) <> JStr "paybill" ->
  getBusinessName w s
  = (Throw (MpesaException (JStr "Identifier type is not supported")), s)
  /\ (forall amount accountNumber size,
         truthy amount = true ->
         invoke w (GenerateQRCode amount accountNumber size) s
         = (Throw (MpesaException (JStr "Identifier type is not supported")),
            s)).
Proof.
  intros H1 H2.
  assert (E : getBusinessName w s
              = (Throw (MpesaException
                          (JStr "Identifier type is not supported")), s)).
  { unfold getBusinessName. rewrite bind_getThis. unfold bind.
    rewrite queryOrgInfo_run, (js_is_false _ _ H1), (js_is_false _ _ H2).
    reflexivity. }
  split; [exact E |].
  intros amount accountNumber size Ha. cbn [invoke]. unfold generateQRCode.
  rewrite (bind_require_true _ _ _ _ Ha), bind_getThis.
  unfold bind at 1. rewrite E. reflexivity.
Qed.

Lemma unsupported_shortCodeType_witness :
  construct Sample.twoCertificates 0 Sample.misspeltEnv
  = Return Sample.misspelt
  /\ getBusinessName Sample.twoCertificates Sample.startMisspelt
     = (Throw (MpesaException (JStr "Identifier type is not supported")),
        Sample.startMisspelt).
Proof.
  split; [reflexivity |].
  apply (unsupported_shortCodeType Sample.twoCertificates
           Sample.startMisspelt); discriminate.
Defined.




Lemma js_slice0_short (n : nat) (s : string) :
  (String.length (js_slice0 n s) <= n)%nat.
Proof. rewrite js_slice0_length. apply Nat.le_min_l. Qed.

(** [initiateB2BExpressCheckout] sends a truthy [requestRef] and a truthy
    [paymentRef] as given; otherwise it sends "B2B_" (respectively
    "PAYREFID_") followed by the clock's milliseconds, "_" and at most nine
    characters of the random string after its first two.  The clock and the
    random source are read in the order clock, random, clock, random. *)
Theorem expressCheckout_references (w : World)
    (amount receiverShortCode callBackUrl partnerName paymentRef
       requestRef : JSValue) (s : State) (r : Request) :
  In r (sent w (InitiateB2BExpressCheckout amount receiverShortCode
                  callBackUrl partnerName paymentRef requestRef) s) ->
  method r = "post" ->
  getProp (data r) "RequestRefID"
  = (if truthy requestRef then requestRef
     else JStr ("B2B_" ++ decimal (dateNow w (reads s)) ++ "_"
                ++ substr_2_9 (mathRandom36 w (1 + reads s))))
  /\ getProp (data r) "PaymentRef"
     = (if truthy paymentRef then paymentRef
        else JStr ("PAYREFID_" ++ decimal (dateNow w (2 + reads s)) ++ "_"
                   ++ substr_2_9 (mathRandom36 w (3 + reads s))))
  /\ (forall random, (String.length (substr_2_9 random) <= 9)%nat).
Proof.
  intros Hin Hm.
  unfold sent in Hin. revert Hin. reach_exchange; nothing_sent.
  unfold bind at 1 2 3 4. unfold Date_now, Math_random36.
  cbn [self log reads]. rewrite bind_getThis. cbn [self].
  intros Hin.
  destruct (posted _ _ _ _ _ _ _ Hin eq_refl Hm) as (token & Ht & ->).
  cbn [data postRequest].
  split; [apply js_or_orDefault_null | split; [apply js_or_orDefault_null |]].
  intros random. apply js_slice0_short.
Qed.

Lemma expressCheckout_references_witness :
  getProp
    (data (Sample.secondSent Sample.everythingOK
             (InitiateB2BExpressCheckout (JNum 10) (JStr "600000")
                (JStr "https://example.com/callback") (JStr "Duka")
                (JStr "PAY-1") JUndefined)))
    "RequestRefID"
  = JStr "B2B_1455728187001_4fzyo82mv"
  /\ getProp
       (data (Sample.secondSent Sample.everythingOK
                (InitiateB2BExpressCheckout (JNum 10) (JStr "600000")
                   (JStr "https://example.com/callback") (JStr "Duka")
                   (JStr "PAY-1") JUndefined)))
       "PaymentRef"
     = JStr "PAY-1".
Proof.
  destruct (expressCheckout_references Sample.everythingOK (JNum 10)
              (JStr "600000") (JStr "https://example.com/callback")
              (JStr "Duka") (JStr "PAY-1") JUndefined Sample.start
              (Sample.secondSent Sample.everythingOK
                 (InitiateB2BExpressCheckout (JNum 10) (JStr "600000")
                    (JStr "https://example.com/callback") (JStr "Duka")
                    (JStr "PAY-1") JUndefined)))
    as (H1 & H2 & _).
  - vm_compute. right. left. reflexivity.
  - reflexivity.
  - split; [exact H1 | exact H2].
Defined.

(** ** Phone numbers in the payloads *)

Lemma formatPhoneNumber_string (p : JSValue) :
  truthy p = true -> exists str, formatPhoneNumber p = JStr str.
Proof.
  intros H. unfold formatPhoneNumber. rewrite H. cbn [negb].
  destruct (Nat.eqb _ 9); [eauto |].
  destruct (Nat.eqb _ 10); [eauto |].
  destruct (startsWith _ _); eauto.
Qed.

(** In [stkPush], [initiateB2C] and [mpesaRatiba] the phone members of the
    POST hold the normalised phone number, which is a string: a call that
    reaches the network never sends null for the phone. *)
Theorem phone_in_payload (w : World) (c : Call) (s : State)
    (phoneNumber : JSValue) (keys : list string) (key : string)
    (r : Request) :
  phoneOf c = Some (phoneNumber, keys) -> In key keys ->
  In r (sent w c s) -> method r = "post" ->
  getProp (data r) key = formatPhoneNumber phoneNumber
  /\ exists str, formatPhoneNumber phoneNumber = JStr str.
Proof.
  intros Hc Hk Hin Hm.
  destruct c; try discriminate Hc; injection Hc as <- <-;
    its_payload Hin Hm;
    (split; [| now apply formatPhoneNumber_string]);
    cbn [In] in Hk;
    repeat (destruct Hk as [<- | Hk]; [reflexivity |]); destruct Hk.
Qed.

Lemma phone_in_payload_witness :
  getProp (data (Sample.secondSent Sample.everythingOK Sample.push))
    "PhoneNumber"
  = formatPhoneNumber (JStr "0712345678")
  /\ exists str, formatPhoneNumber (JStr "0712345678") = JStr str.
Proof.
  apply (phone_in_payload Sample.everythingOK Sample.push Sample.start
           (JStr "0712345678") ["PartyA"; "PhoneNumber"] "PhoneNumber"
           (Sample.secondSent Sample.everythingOK Sample.push) eq_refl).
  - right. left. reflexivity.
  - vm_compute. right. left. reflexivity.
  - reflexivity.
Defined.

Lemma decimal_nonempty (n : Z) : decimal n <> "".
Proof.
  destruct n as [| p | p]; cbn [decimal]; try discriminate.
  pose proof (DecimalPos.Unsigned.to_uint_nonnil p) as H.
  destruct (Pos.to_uint p); [contradiction | discriminate ..].
Qed.

Lemma truthy_nonempty (p : JSValue) :
  (exists s, p = JStr s) \/ (exists n, p = JNum n) ->
  truthy p = true -> truthy (JStr (js_toString p)) = true.
Proof.
  intros [[s ->] | [n ->]] H; [exact H |].
  cbn [truthy js_toString]. apply negb_true_iff, String.eqb_neq.
  apply decimal_nonempty.
Qed.

(** Normalising a phone number given as a string or a number twice is
    normalising it once; and a string form of 9 or 10 characters is
    normalised to 12 characters. *)
Theorem formatPhoneNumber_idempotent (p : JSValue) :
  (exists s, p = JStr s) \/ (exists n, p = JNum n) ->
  formatPhoneNumber (formatPhoneNumber p) = formatPhoneNumber p
  /\ (truthy p = true ->
      String.length (js_toString p) = 9%nat
      \/ String.length (js_toString p) = 10%nat ->
      exists str,
        formatPhoneNumber p = JStr str /\ String.length str = 12%nat).
Proof.
  intros Hp.
  destruct (truthy p) eqn:Ht.
  2:{ unfold formatPhoneNumber at 2 3. rewrite Ht. cbn [negb].
      split; [reflexivity | discriminate]. }
  pose proof (truthy_nonempty p Hp Ht) as Hne.
  unfold formatPhoneNumber at 2 3 4. rewrite Ht. cbn [negb].
  set (numberStr := js_toString p) in *.
  destruct (Nat.eqb (String.length numberStr) 9) eqn:E9.
  { apply Nat.eqb_eq in E9. split.
    - unfold formatPhoneNumber. cbn [truthy js_toString negb].
      cbn [String.append String.eqb String.length]. rewrite E9.
      cbn [negb Nat.eqb]. destruct (startsWith _ _); reflexivity.
    - intros _ _. eexists. split; [reflexivity |].
      cbn [String.append String.length]. now rewrite E9. }
  destruct (Nat.eqb (String.length numberStr) 10) eqn:E10.
  { apply Nat.eqb_eq in E10.
    destruct numberStr as [| c rest]; [discriminate E10 |].
    cbn [js_substring]. cbn [String.length] in E10.
    injection E10 as E10. split.
    - unfold formatPhoneNumber. cbn [truthy js_toString negb].
      cbn [String.append String.eqb String.length]. rewrite E10.
      cbn [negb Nat.eqb]. destruct (startsWith _ _); reflexivity.
    - intros _ _. eexists. split; [reflexivity |].
      cbn [String.append String.length]. now rewrite E10. }
  split.
  - assert (E : formatPhoneNumber (JStr numberStr) = JStr numberStr).
    { unfold formatPhoneNumber. rewrite Hne. cbn [negb js_toString].
      rewrite E9, E10. destruct (startsWith _ _); reflexivity. }
    destruct (startsWith numberStr "254"); exact E.
  - apply Nat.eqb_neq in E9, E10. intros _ [H | H]; contradiction.
Qed.

Lemma formatPhoneNumber_idempotent_witness :
  formatPhoneNumber (formatPhoneNumber (JStr "0712345678"))
  = formatPhoneNumber (JStr "0712345678")
  /\ exists str,
       formatPhoneNumber (JStr "0712345678") = JStr str
       /\ String.length str = 12%nat.
Proof.
  destruct (formatPhoneNumber_idempotent (JStr "0712345678")) as [H1 H2].
  - left. eexists. reflexivity.
  - split; [exact H1 |]. apply H2; [reflexivity | right; reflexivity].
Defined.

(** ** Errors, and how much a call sends *)

Lemma answer_throws (keys : list string) (o : HttpOutcome) (e : Thrown) :
  answer keys o = Throw e -> exists m, e = MpesaException m.
Proof.
  destruct o as [m | st body]; cbn [answer]; [intros [= <-]; eauto |].
  destruct (accepted st); [| intros [= <-]; eauto].
  destruct (truthy body); [| intros [= <-]; eauto].
  destruct (Z.eqb st 200); [discriminate | intros [= <-]; eauto].
Qed.

Lemma Exchange_throws w this before keys endpoint payload trace r e :
  Exchange w this before keys endpoint payload trace r ->
  r = Throw e -> exists m, e = MpesaException m.
Proof.
  intros [u Hd | token Hs] E.
  - injection E as <-. unfold authenticationError. eauto.
  - eapply answer_throws; eauto.
Qed.

Lemma Run_throws w this keys before trace r e :
  Run w this keys before trace r ->
  r = Throw e -> exists m, e = MpesaException m.
Proof.
  intros [message | ep d tr r' Ex | e1 d1 tr1 a e2 d2 tr2 r' Ex1 Ex2] E.
  - injection E as <-. eauto.
  - eapply Exchange_throws; eauto.
  - eapply Exchange_throws; eauto.
Qed.

Lemma getBusinessName_as_query (w : World) (s : State) :
  getBusinessName w s
  = match invoke w (QueryOrgInfo (shortCodeType (self s))
                      (businessShortCode (self s))) s with
    | (Return orgInfo, s1) => (Return (getProp orgInfo "OrganizationName"), s1)
    | (Throw e, s1) => (Throw e, s1)
    end.
Proof. reflexivity. Qed.

(** Whatever goes wrong in a public call (a guard, the token fetch, the
    network, the status, the body), the caller gets an [MpesaException],
    never the error of axios or a [TypeError]. *)
Theorem errors_are_MpesaException (w : World) (c : PublicCall) (s : State)
    (e : Thrown) :
  fst (invokePublic w c s) = Throw e -> exists m, e = MpesaException m.
Proof.
  destruct c as [c |]; cbn [invokePublic].
  - intros E. destruct (invoke_Run w c s) as (tr & _ & _ & R).
    eapply Run_throws; eauto.
  - rewrite getBusinessName_as_query.
    destruct (invoke_Run w (QueryOrgInfo (shortCodeType (self s))
                              (businessShortCode (self s))) s)
      as (tr & _ & _ & R).
    destruct (invoke w _ s) as [[o | e'] s1]; cbn [fst] in *;
      [discriminate |].
    intros [= <-]. eapply Run_throws; eauto.
Qed.

Lemma errors_are_MpesaException_witness :
  exists m,
    MpesaException
      (JStr "Failed to generate access token: connect ECONNREFUSED 127.0.0.1:443")
    = MpesaException m.
Proof.
  apply (errors_are_MpesaException
           (Sample.world Sample.refused Sample.invalidAmount)
           GetBusinessName Sample.start).
  reflexivity.
Defined.

Lemma Exchange_length w this before keys endpoint payload trace r :
  Exchange w this before keys endpoint payload trace r ->
  (1 <= List.length trace <= 2)%nat.
Proof. intros [u Hd | token Hs]; cbn; lia. Qed.

(** A call of a business method issues at most four requests, and at most
    two (one token fetch, one POST) unless it is [generateQRCode]: nothing is
    ever sent twice. *)
Theorem requests_bounded (w : World) (c : Call) (s : State) :
  (List.length (sent w c s) <= 4)%nat
  /\ ((forall amount accountNumber size,
          c <> GenerateQRCode amount accountNumber size) ->
      (List.length (sent w c s) <= 2)%nat).
Proof.
  split.
  - destruct (sent_Run w c s)
      as [message | ep d tr r' Ex | e1 d1 tr1 a e2 d2 tr2 r' Ex1 Ex2].
    + cbn. lia.
    + apply Exchange_length in Ex. lia.
    + apply Exchange_length in Ex1, Ex2. rewrite length_app. lia.
  - intros Hc.
    destruct (invoke_cases w c s)
      as [[message E]
         | [(payload & s0 & E & Hself & Hlog & _)
           | (amount & accountNumber & size & -> & _)]].
    + rewrite (sent_refused w c s _ E). cbn. lia.
    + rewrite (sent_exchange w c s s0 _ _ _ E Hself Hlog).
      unfold exchanged. destruct (tokenFetch _); cbn; lia.
    + exfalso. eapply Hc. reflexivity.
Qed.

Lemma requests_bounded_witness :
  (List.length (sent Sample.everythingOK Sample.push Sample.start) <= 2)%nat.
Proof.
  apply (requests_bounded Sample.everythingOK Sample.push Sample.start).
  discriminate.
Defined.

(** A POST that meets a transport failure makes the call fail with the
    message of that failure. *)
Theorem transport_failure (w : World) (c : Call) (s : State)
    (pre : list Request) (req : Request) (message : string) :
  sent w c s = (pre ++ [req])%list ->
  method req = "post" ->
  http w (log s ++ pre)%list req = NetworkError message ->
  fst (invoke w c s) = Throw (MpesaException (JStr message)).
Proof.
  intros Hs Hm Hh.
  rewrite (invoke_answered w c s pre req), Hh; [reflexivity | | exact Hm].
  rewrite log_sent, Hs. reflexivity.
Qed.

Lemma transport_failure_witness :
  fst (invoke (Sample.world Sample.tokenOK (NetworkError "socket hang up"))
         Sample.push Sample.start)
  = Throw (MpesaException (JStr "socket hang up")).
Proof.
  apply (transport_failure
           (Sample.world Sample.tokenOK (NetworkError "socket hang up"))
           Sample.push Sample.start [tokenRequest Sample.client]
           Sample.pushPost "socket hang up"); reflexivity.
Defined.

(** ** Tokens and destinations, over any sequence of calls *)

Lemma fresh_nil w this before : freshlyAuthorized w this before [].
Proof. intros pre p post H. destruct pre; discriminate H. Qed.

Lemma fresh_Exchange w this before keys endpoint payload trace r :
  Exchange w this before keys endpoint payload trace r ->
  freshlyAuthorized w this before trace.
Proof.
  intros [u Hd | token Hs] pre p post H Hm.
  - destruct pre as [| x pre]; cbn [app] in H.
    + injection H as <- _. discriminate Hm.
    + injection H as _ H. destruct pre; discriminate H.
  - destruct pre as [| x [| y pre]]; cbn [app] in H.
    + injection H as <- _. discriminate Hm.
    + injection H as <- <- _. exists [], token, endpoint, payload.
      rewrite app_nil_r. auto.
    + injection H as _ _ H. destruct pre; discriminate H.
Qed.

Lemma fresh_app w this before t1 t2 :
  freshlyAuthorized w this before t1 ->
  freshlyAuthorized w this (before ++ t1)%list t2 ->
  freshlyAuthorized w this before (t1 ++ t2)%list.
Proof.
  intros F1 F2 pre p post H Hm.
  apply app_eq_app in H as [l [[E1 E2] | [E1 E2]]].
  - destruct l as [| x l]; cbn [app] in E2.
    + rewrite app_nil_r in E1. subst t1.
      destruct (F2 [] p post (eq_sym E2) Hm)
        as (pre' & token & ep & d & E & _).
      destruct pre'; discriminate E.
    + injection E2 as <- E2.
      apply (F1 pre p l E1 Hm).
  - subst pre.
    destruct (F2 l p post E2 Hm) as (pre' & token & ep & d & -> & Ht & Hp).
    exists (t1 ++ pre')%list, token, ep, d.
    rewrite <- !app_assoc in *. auto.
Qed.

Lemma fresh_Run w this keys before trace r :
  Run w this keys before trace r -> freshlyAuthorized w this before trace.
Proof.
  intros [message | ep d tr r' Ex | e1 d1 tr1 a e2 d2 tr2 r' Ex1 Ex2].
  - apply fresh_nil.
  - eapply fresh_Exchange; eauto.
  - eapply fresh_app; eapply fresh_Exchange; eauto.
Qed.

Lemma own_Exchange w this before keys endpoint payload trace r :
  Exchange w this before keys endpoint payload trace r ->
  ownRequests this trace.
Proof.
  intros [u Hd | token Hs] x Hin; cbn [In] in Hin.
  - destruct Hin as [<- | []]. now left.
  - destruct Hin as [<- | [<- | []]]; [now left | right; eauto].
Qed.

Lemma own_app this t1 t2 :
  ownRequests this t1 -> ownRequests this t2 -> ownRequests this (t1 ++ t2).
Proof.
  intros O1 O2 x Hin. apply in_app_iff in Hin as [Hin | Hin]; auto.
Qed.

Lemma own_Run w this keys before trace r :
  Run w this keys before trace r -> ownRequests this trace.
Proof.
  intros [message | ep d tr r' Ex | e1 d1 tr1 a e2 d2 tr2 r' Ex1 Ex2].
  - intros x [].
  - eapply own_Exchange; eauto.
  - eapply own_app; eapply own_Exchange; eauto.
Qed.

Lemma invokePublic_trace (w : World) (c : PublicCall) (s : State) :
  exists trace,
    log (snd (invokePublic w c s)) = (log s ++ trace)%list
    /\ freshlyAuthorized w (self s) (log s) trace
    /\ ownRequests (self s) trace.
Proof.
  assert (Q : forall q, exists trace,
               log (snd (invoke w q s)) = (log s ++ trace)%list
               /\ freshlyAuthorized w (self s) (log s) trace
               /\ ownRequests (self s) trace).
  { intros q. destruct (invoke_Run w q s) as (tr & _ & E & R).
    exists tr. split; [exact E | split].
    - eapply fresh_Run; eauto.
    - eapply own_Run; eauto. }
  destruct c as [c |]; cbn [invokePublic]; [apply Q |].
  rewrite getBusinessName_as_query.
  destruct (Q (QueryOrgInfo (shortCodeType (self s))
                 (businessShortCode (self s)))) as (tr & E & F & O).
  exists tr. destruct (invoke w _ s) as [[o | e] s1]; cbn [snd] in *; auto.
Qed.

Lemma invokeAll_trace (w : World) (calls : list PublicCall) (s : State) :
  exists trace,
    log (snd (invokeAll w calls s)) = (log s ++ trace)%list
    /\ freshlyAuthorized w (self s) (log s) trace
    /\ ownRequests (self s) trace.
Proof.
  revert s. induction calls as [| c rest IH]; intros s.
  - exists []. cbn [invokeAll snd]. rewrite app_nil_r.
    split; [reflexivity | split; [apply fresh_nil | intros x []]].
  - cbn [invokeAll].
    destruct (invokePublic_trace w c s) as (t1 & E1 & F1 & O1).
    pose proof (invokePublic_self w c s) as Hs.
    destruct (invokePublic w c s) as [r s1]. cbn [snd] in *.
    destruct (IH s1) as (t2 & E2 & F2 & O2).
    destruct (invokeAll w rest s1) as [rs s2]. cbn [snd] in *.
    rewrite Hs, E1 in *.
    exists (t1 ++ t2)%list. rewrite E2, app_assoc.
    split; [reflexivity | split].
    + now apply fresh_app.
    + now apply own_app.
Qed.

Lemma sentAll_trace (w : World) (calls : list PublicCall) (s : State) :
  freshlyAuthorized w (self s) (log s) (sentAll w calls s)
  /\ ownRequests (self s) (sentAll w calls s).
Proof.
  unfold sentAll. destruct (invokeAll_trace w calls s) as (tr & E & F & O).
  rewrite E, skipn_length_app. auto.
Qed.

(** No token is kept from one request to the next.  In any sequence of
    public calls, every POST comes right after a token request that was
    answered with a token, and carries that token as its bearer. *)
Theorem token_fetched_for_every_post (w : World) (calls : list PublicCall)
    (s : State) (pre : list Request) (p : Request) (post : list Request) :
  sentAll w calls s = (pre ++ p :: post)%list ->
  method p = "post" ->
  exists pre' token,
    pre = (pre' ++ [tokenRequest (self s)])%list
    /\ tokenFetch (http w (log s ++ pre')%list (tokenRequest (self s)))
       = inr token
    /\ header "Authorization" (headers p)
       = Some ("Bearer " ++ js_toString token).
Proof.
  intros H Hm.
  destruct (sentAll_trace w calls s) as [F _].
  destruct (F pre p post H Hm) as (pre' & token & ep & d & -> & Ht & ->).
  exists pre', token. auto.
Qed.

Lemma token_fetched_for_every_post_witness :
  exists pre' token,
    [tokenRequest Sample.client;
     postRequest Sample.client (JStr "tok") "sfcverify/v1/query/info"
       (JObj [("IdentifierType", JNum 4); ("Identifier", JStr "174379")]);
     tokenRequest Sample.client]
    = (pre' ++ [tokenRequest (self Sample.start)])%list
    /\ tokenFetch (http Sample.everythingOK (log Sample.start ++ pre')%list
                     (tokenRequest (self Sample.start)))
       = inr token
    /\ header "Authorization" (headers Sample.pushPost)
       = Some ("Bearer " ++ js_toString token).
Proof.
  apply (token_fetched_for_every_post Sample.everythingOK
           [GetBusinessName; Business Sample.push] Sample.start
           [tokenRequest Sample.client;
            postRequest Sample.client (JStr "tok") "sfcverify/v1/query/info"
              (JObj [("IdentifierType", JNum 4);
                     ("Identifier", JStr "174379")]);
            tokenRequest Sample.client]
           Sample.pushPost []).
  - vm_compute. reflexivity.
  - reflexivity.
Defined.

Lemma prefix_append (a b : string) : String.prefix a (a ++ b) = true.
Proof.
  induction a as [| c a IH]; cbn; [now destruct b |].
  destruct (ascii_dec c c); [exact IH | congruence].
Qed.

Lemma prefix_append_more (a b c : string) :
  String.prefix (a ++ b) (a ++ b ++ c) = true.
Proof.
  induction a as [| x a IH]; cbn; [apply prefix_append |].
  destruct (ascii_dec x x); [exact IH | congruence].
Qed.

(** In any sequence of public calls, every request goes under the client's
    base URL as JSON, and every GET is the token request: to the OAuth
    address, with the consumer key and secret as basic credentials. *)
Theorem requests_under_baseUrl (w : World) (calls : list PublicCall)
    (s : State) (r : Request) :
  In r (sentAll w calls s) ->
  String.prefix (baseUrl (self s) ++ "/") (url r) = true
  /\ header "Content-Type" (headers r) = Some "application/json"
  /\ (method r = "get" ->
      url r = baseUrl (self s)
              ++ "/oauth/v1/generate?grant_type=client_credentials"
      /\ header "Authorization" (headers r)
         = Some ("Basic "
                 ++ Base64.encode (js_toString (consumerKey (self s)) ++ ":"
                                   ++ js_toString (consumerSecret (self s))))).
Proof.
  intros Hin.
  destruct (sentAll_trace w calls s) as [_ O].
  destruct (O r Hin) as [-> | (token & ep & d & ->)].
  - split; [| split; [reflexivity | intros _; split; reflexivity]].
    cbn [url tokenRequest].
    change "/oauth/v1/generate?grant_type=client_credentials"
      with ("/" ++ "oauth/v1/generate?grant_type=client_credentials").
    apply prefix_append_more.
  - split; [| split; [reflexivity | discriminate]].
    cbn [url postRequest]. apply prefix_append_more.
Qed.

Lemma requests_under_baseUrl_witness :
  String.prefix "https://sandbox.safaricom.co.ke/" (url Sample.pushPost) = true
  /\ header "Content-Type" (headers Sample.pushPost) = Some "application/json".
Proof.
  destruct (requests_under_baseUrl Sample.everythingOK
              [Business Sample.push] Sample.start Sample.pushPost)
    as (H1 & H2 & _).
  - vm_compute. right. left. reflexivity.
  - split; [exact H1 | exact H2].
Defined.

(** ** When a call reaches the network *)

Lemma js_is_true (v : JSValue) (s : string) : js_is v s = true -> v = JStr s.
Proof.
  destruct v; try discriminate. cbn [js_is]. intros H.
  apply String.eqb_eq in H. now subst.
Qed.

Lemma sent_form (w : World) (keys : list string) (endpoint : string)
    (payload : JSValue) (s0 : State) (n : nat) :
  n = List.length (log s0) ->
  skipn n (log (snd ((response <- sendRequest w endpoint payload ;;
                      checkResponse keys response) s0)))
  = exchanged w endpoint payload s0.
Proof.
  intros ->.
  change (skipn (List.length (log s0))
            (log (snd (exchange w keys endpoint payload s0)))
          = exchanged w endpoint payload s0).
  rewrite exchange_run. cbn [snd issued log]. apply skipn_length_app.
Qed.

Lemma exchange_log (w : World) (keys : list string) (endpoint : string)
    (payload : JSValue) (s : State) :
  log (snd (exchange w keys endpoint payload s))
  = (log s ++ exchanged w endpoint payload s)%list.
Proof. rewrite exchange_run. reflexivity. Qed.

Lemma skipn_own_length {A} (l : list A) : skipn (List.length l) l = [].
Proof.
  rewrite <- (app_nil_r l) at 2. apply skipn_length_app.
Qed.

(** A guard stopped the call: nothing was sent, and the falsy argument is
    one of those the method tests. *)
Ltac stopped_at_guard :=
  cbn [snd]; rewrite skipn_own_length;
  split; [intros _; left; eexists; split; [| eassumption]; cbn; tauto
         | reflexivity].

(** The call went past its guards: the token request was sent, and no
    tested argument is falsy. *)
Ltac went_through :=
  split;
  [ discriminate
  | let a := fresh "a" in
    let Hin := fresh "Hin" in
    let Hf := fresh "Hf" in
    let Ht := fresh "Ht" in
    intros [(a & Hin & Hf) | (? & Ht & _)]; [| discriminate Ht];
    exfalso; cbn [In] in Hin;
    repeat (destruct Hin as [<- | Hin]; [congruence |]); destruct Hin ].

(** A call of a business method sends nothing exactly when one of the
    arguments it tests is falsy or the type it tests ([queryOrgInfo]'s
    [type], the client's [shortCodeType] in [generateQRCode]) is neither
    "till" nor "paybill"; in every other case the token request, at least,
    is sent. *)
Theorem sends_nothing_iff (w : World) (c : Call) (s : State) :
  sent w c s = []
  <-> (exists a, In a (checkedArguments c) /\ truthy a = false)
      \/ (exists t, typeTested (self s) c = Some t
                    /\ t <> JStr "till" /\ t <> JStr "paybill").
Proof.
  destruct c; cbn [checkedArguments typeTested]; unfold sent.
  3:{ (* generateQRCode *)
    destruct (truthy amount) eqn:Ea.
    2:{ cbn [invoke]. unfold generateQRCode.
        rewrite (bind_require_false _ _ _ _ Ea). stopped_at_guard. }
    cbn [invoke].
    destruct (generateQRCode_run w amount accountNumber size s Ea)
      as (payload & ->).
    rewrite queryOrgInfo_run.
    assert (Two : forall p,
      skipn (List.length (log s))
        (log (snd (match exchange w standardKeys "sfcverify/v1/query/info" p s
                   with
                   | (Return orgInfo, s1) =>
                       exchange w standardKeys "mpesa/qrcode/v1/generate"
                         (payload orgInfo) s1
                   | (Throw e, s1) => (Throw e, s1)
                   end))) <> []).
    { intros p.
      pose proof (exchange_log w standardKeys "sfcverify/v1/query/info" p s)
        as L1.
      destruct (exchange w standardKeys "sfcverify/v1/query/info" p s)
        as [[o | e] s1]; cbn [snd] in *.
      - rewrite exchange_log, L1, <- app_assoc, skipn_length_app.
        unfold exchanged at 1. discriminate.
      - rewrite L1, skipn_length_app. unfold exchanged. discriminate. }
    destruct (js_is (shortCodeType (self s)) "till") eqn:E1.
    { apply js_is_true in E1. split; [intros H; now apply Two in H |].
      intros [(a & [<- | []] & Hf) | (t & [= <-] & H1 & _)]; congruence. }
    destruct (js_is (shortCodeType (self s)) "paybill") eqn:E2.
    { apply js_is_true in E2. split; [intros H; now apply Two in H |].
      intros [(a & [<- | []] & Hf) | (t & [= <-] & _ & H2)]; congruence. }
    cbn [snd]. rewrite skipn_own_length.
    split; [intros _; right | reflexivity].
    eexists. split; [reflexivity |].
    split; intros H; rewrite H in *; discriminate. }
  2:{ (* queryOrgInfo *)
    cbn [invoke]. rewrite queryOrgInfo_run.
    destruct (js_is type "till") eqn:E1.
    { apply js_is_true in E1. rewrite exchange_log, skipn_length_app.
      split; [discriminate |].
      intros [(a & [] & _) | (t & [= <-] & H1 & _)]. congruence. }
    destruct (js_is type "paybill") eqn:E2.
    { apply js_is_true in E2. rewrite exchange_log, skipn_length_app.
      split; [discriminate |].
      intros [(a & [] & _) | (t & [= <-] & _ & H2)]. congruence. }
    cbn [snd]. rewrite skipn_own_length.
    split; [intros _; right | reflexivity].
    eexists. split; [reflexivity |].
    split; intros H; rewrite H in *; discriminate. }
  all: reach_exchange; try stopped_at_guard.
  all: try (rewrite sent_form by reflexivity; went_through).
  (* initiateB2BExpressCheckout reads the clock and the random source first *)
  unfold bind at 1 2 3 4. unfold Date_now, Math_random36.
  cbn [self log reads]. rewrite bind_getThis.
  rewrite sent_form by reflexivity. went_through.
Qed.

(** ** Default values *)

(** The default of [description], [remarks] and [frequency] is sent only
    when the argument is left out (undefined); any other value, null and the
    empty string included, is sent as given. *)
Theorem defaults_only_for_undefined (w : World) (c : Call) (s : State)
    (key : string) (given default : JSValue) (r : Request) :
  defaulted c = Some (key, given, default) ->
  In r (sent w c s) -> method r = "post" ->
  (given = JUndefined -> getProp (data r) key = default)
  /\ (given <> JUndefined -> getProp (data r) key = given).
Proof.
  intros Hc Hin Hm.
  destruct c; try discriminate Hc; injection Hc as <- <- <-;
    its_payload Hin Hm;
    (split; [intros ->; reflexivity |]);
    intros Hg; cbn;
    match goal with
    | |- orDefault ?g _ = _ => destruct g; try reflexivity; congruence
    end.
Qed.

Lemma defaults_only_for_undefined_witness :
  getProp
    (data (Sample.secondSent Sample.everythingOK
             (StkPush (JNum 100) (JStr "0712345678") (JStr "INV-1")
                (JStr "https://example.com/callback") JNull)))
    "TransactionDesc"
  = JNull.
Proof.
  apply (defaults_only_for_undefined Sample.everythingOK
           (StkPush (JNum 100) (JStr "0712345678") (JStr "INV-1")
              (JStr "https://example.com/callback") JNull)
           Sample.start "TransactionDesc" JNull (JStr "STK Push Request")
           (Sample.secondSent Sample.everythingOK
              (StkPush (JNum 100) (JStr "0712345678") (JStr "INV-1")
                 (JStr "https://example.com/callback") JNull))
           eq_refl).
  - vm_compute. right. left. reflexivity.
  - reflexivity.
  - discriminate.
Defined.

(** ** The payloads of [queryOrgInfo] and [registerUrl], as sent *)

Lemma exchange_posts (w : World) (keys : list string) (endpoint : string)
    (payload : JSValue) (s : State) :
  (forall trace r,
      log (snd (exchange w keys endpoint payload s)) = (log s ++ trace)%list ->
      In r trace -> method r = "post" ->
      data r = payload /\ url r = baseUrl (self s) ++ "/" ++ endpoint)
  /\ (forall token,
         tokenFetch (http w (log s) (tokenRequest (self s))) = inr token ->
         exists r,
           log (snd (exchange w keys endpoint payload s))
           = (log s ++ [tokenRequest (self s); r])%list
           /\ method r = "post" /\ data r = payload
           /\ url r = baseUrl (self s) ++ "/" ++ endpoint)
  /\ exists rest,
       log (snd (exchange w keys endpoint payload s))
       = (log s ++ tokenRequest (self s) :: rest)%list.
Proof.
  rewrite exchange_log. split; [| split].
  - intros trace r H Hin Hm. apply app_inv_head in H. subst trace.
    destruct (exchanged_post w endpoint payload s r Hin Hm)
      as (token & _ & ->).
    split; reflexivity.
  - intros token Ht. unfold exchanged. rewrite Ht.
    eexists. split; [reflexivity |]. repeat split.
  - unfold exchanged. eexists. reflexivity.
Qed.

(** C5.  With type "till", every POST that [queryOrgInfo] issues carries
    IdentifierType 2 and the shortcode given as Identifier, and once the
    token fetch has given a token such a POST is issued, right after the
    token request; with type "paybill" the same holds with IdentifierType 4.
    With any other type the call fails with "Identifier type is not
    supported" and leaves the state as it was: no request has been
    issued. *)
Theorem C5_queryOrgInfo (w : World) (shortCode : JSValue) (s : State) :
  (forall trace r,
      log (snd (queryOrgInfo w (JStr "till") shortCode s))
      = (log s ++ trace)%list ->
      In r trace -> method r = "post" ->
      getProp (data r) "IdentifierType" = JNum 2
      /\ getProp (data r) "Identifier" = shortCode)
  /\ (forall trace r,
         log (snd (queryOrgInfo w (JStr "paybill") shortCode s))
         = (log s ++ trace)%list ->
         In r trace -> method r = "post" ->
         getProp (data r) "IdentifierType" = JNum 4
         /\ getProp (data r) "Identifier" = shortCode)
  /\ (forall token,
         tokenFetch (http w (log s) (tokenRequest (self s))) = inr token ->
         (exists r,
             log (snd (queryOrgInfo w (JStr "till") shortCode s))
             = (log s ++ [tokenRequest (self s); r])%list
             /\ method r = "post"
             /\ url r = baseUrl (self s) ++ "/sfcverify/v1/query/info"
             /\ getProp (data r) "IdentifierType" = JNum 2
             /\ getProp (data r) "Identifier" = shortCode)
         /\ (exists r,
                log (snd (queryOrgInfo w (JStr "paybill") shortCode s))
                = (log s ++ [tokenRequest (self s); r])%list
                /\ method r = "post"
                /\ url r = baseUrl (self s) ++ "/sfcverify/v1/query/info"
                /\ getProp (data r) "IdentifierType" = JNum 4
                /\ getProp (data r) "Identifier" = shortCode))
  /\ (forall type,
         type <> JStr "till" -> type <> JStr "paybill" ->
         queryOrgInfo w type shortCode s
         = (Throw (MpesaException (JStr "Identifier type is not supported")),
            s)).
Proof.
  assert (E2 : queryOrgInfo w (JStr "till") shortCode s
               = exchange w standardKeys "sfcverify/v1/query/info"
                   (JObj [("IdentifierType", JNum 2);
                          ("Identifier", shortCode)]) s)
    by (rewrite queryOrgInfo_run; reflexivity).
  assert (E4 : queryOrgInfo w (JStr "paybill") shortCode s
               = exchange w standardKeys "sfcverify/v1/query/info"
                   (JObj [("IdentifierType", JNum 4);
                          ("Identifier", shortCode)]) s)
    by (rewrite queryOrgInfo_run; reflexivity).
  rewrite E2, E4.
  destruct (exchange_posts w standardKeys "sfcverify/v1/query/info"
              (JObj [("IdentifierType", JNum 2); ("Identifier", shortCode)]) s)
    as (A2 & B2 & _).
  destruct (exchange_posts w standardKeys "sfcverify/v1/query/info"
              (JObj [("IdentifierType", JNum 4); ("Identifier", shortCode)]) s)
    as (A4 & B4 & _).
  split; [| split; [| split]].
  - intros trace r H Hin Hm. destruct (A2 trace r H Hin Hm) as [-> _].
    split; reflexivity.
  - intros trace r H Hin Hm. destruct (A4 trace r H Hin Hm) as [-> _].
    split; reflexivity.
  - intros token Ht. split.
    + destruct (B2 token Ht) as (r & H & Hm & Hd & Hu).
      exists r. rewrite Hd. repeat split; assumption.
    + destruct (B4 token Ht) as (r & H & Hm & Hd & Hu).
      exists r. rewrite Hd. repeat split; assumption.
  - intros type H1 H2. rewrite queryOrgInfo_run.
    rewrite (js_is_false _ _ H1), (js_is_false _ _ H2). reflexivity.
Qed.

Lemma C5_witness :
  (exists r,
      log (snd (queryOrgInfo Sample.everythingOK (JStr "till") (JStr "174379")
                  Sample.start))
      = (log Sample.start ++ [tokenRequest (self Sample.start); r])%list
      /\ method r = "post"
      /\ url r = baseUrl (self Sample.start) ++ "/sfcverify/v1/query/info"
      /\ getProp (data r) "IdentifierType" = JNum 2
      /\ getProp (data r) "Identifier" = JStr "174379")
  /\ queryOrgInfo Sample.everythingOK (JStr "bank") (JStr "174379")
       Sample.start
     = (Throw (MpesaException (JStr "Identifier type is not supported")),
        Sample.start).
Proof.
  destruct (C5_queryOrgInfo Sample.everythingOK (JStr "174379") Sample.start)
    as (_ & _ & Hsent & Hother).
  split.
  - apply (Hsent (JStr "tok")). reflexivity.
  - apply Hother; discriminate.
Defined.

(** C10.  [registerUrl] does not test its [responseType]: with truthy
    confirmation and validation URLs and a missing or falsy response type,
    the call passes the guards and issues the token request; every POST it
    issues carries as [ResponseType] the value given, beside the two URLs
    and the shortcode; and once the token fetch has given a token, that POST
    is issued. *)
Theorem C10_registerUrl_responseType (w : World)
    (responseType confirmationUrl validationUrl : JSValue) (s : State) :
  truthy responseType = false ->
  truthy confirmationUrl = true ->
  truthy validationUrl = true ->
  (exists rest,
      log (snd (registerUrl w responseType confirmationUrl validationUrl s))
      = (log s ++ tokenRequest (self s) :: rest)%list)
  /\ (forall trace r,
         log (snd (registerUrl w responseType confirmationUrl validationUrl s))
         = (log s ++ trace)%list ->
         In r trace -> method r = "post" ->
         getProp (data r) "ResponseType" = responseType
         /\ getProp (data r) "ConfirmationURL" = confirmationUrl
         /\ getProp (data r) "ValidationURL" = validationUrl
         /\ getProp (data r) "ShortCode" = businessShortCode (self s))
  /\ (forall token,
         tokenFetch (http w (log s) (tokenRequest (self s))) = inr token ->
         exists r,
           log (snd (registerUrl w responseType confirmationUrl
                       validationUrl s))
           = (log s ++ [tokenRequest (self s); r])%list
           /\ method r = "post"
           /\ url r = baseUrl (self s) ++ "/mpesa/c2b/v2/registerurl"
           /\ getProp (data r) "ResponseType" = responseType
           /\ getProp (data r) "ConfirmationURL" = confirmationUrl).
Proof.
  intros _ Hc Hv.
  assert (E : registerUrl w responseType confirmationUrl validationUrl s
              = exchange w standardKeys "mpesa/c2b/v2/registerurl"
                  (JObj [("ShortCode", businessShortCode (self s));
                         ("ResponseType", responseType);
                         ("ConfirmationURL", confirmationUrl);
                         ("ValidationURL", validationUrl)]) s).
  { unfold registerUrl. repeat at_guard; try discriminate. reflexivity. }
  rewrite E.
  destruct (exchange_posts w standardKeys "mpesa/c2b/v2/registerurl"
              (JObj [("ShortCode", businessShortCode (self s));
                     ("ResponseType", responseType);
                     ("ConfirmationURL", confirmationUrl);
                     ("ValidationURL", validationUrl)]) s)
    as (A & B & C).
  split; [exact C | split].
  - intros trace r H Hin Hm. destruct (A trace r H Hin Hm) as [-> _].
    repeat split.
  - intros token Ht. destruct (B token Ht) as (r & H & Hm & Hd & Hu).
    exists r. rewrite Hd. repeat split; assumption.
Qed.

Lemma C10_witness :
  exists r,
    log (snd (registerUrl Sample.everythingOK (JStr "")
                (JStr "https://example.com/confirm")
                (JStr "https://example.com/validate") Sample.start))
    = (log Sample.start ++ [tokenRequest (self Sample.start); r])%list
    /\ method r = "post"
    /\ url r = baseUrl (self Sample.start) ++ "/mpesa/c2b/v2/registerurl"
    /\ getProp (data r) "ResponseType" = JStr ""
    /\ getProp (data r) "ConfirmationURL" = JStr "https://example.com/confirm".
Proof.
  destruct (C10_registerUrl_responseType Sample.everythingOK (JStr "")
              (JStr "https://example.com/confirm")
              (JStr "https://example.com/validate") Sample.start
              eq_refl eq_refl eq_refl) as (_ & _ & H).
  apply (H (JStr "tok")). reflexivity.
Defined.

(** ** [getBusinessName] and [generateQRCode], as sent *)

Lemma getBusinessName_parts (w : World) (s : State) :
  snd (getBusinessName w s)
  = snd (queryOrgInfo w (shortCodeType (self s)) (businessShortCode (self s)) s)
  /\ fst (getBusinessName w s)
     = match fst (queryOrgInfo w (shortCodeType (self s))
                    (businessShortCode (self s)) s) with
       | Return orgInfo => Return (getProp orgInfo "OrganizationName")
       | Throw e => Throw e
       end.
Proof.
  rewrite getBusinessName_as_query. cbn [invoke].
  destruct (queryOrgInfo w _ _ s) as [[o | e] s1]; split; reflexivity.
Qed.

(** On a till client ([kind] 2) and on a paybill client ([kind] 4), every
    POST that [getBusinessName] issues goes to the organisation query and
    carries that kind as IdentifierType and the client's own shortcode as
    Identifier; given a token, that POST is issued; and when it is answered
    with HTTP 200 and a truthy body, the call returns the body's
    [OrganizationName] (undefined when the body has none). *)
Theorem getBusinessName_returns (w : World) (s : State) (kind : Z) :
  (shortCodeType (self s) = JStr "till" /\ kind = 2)
  \/ (shortCodeType (self s) = JStr "paybill" /\ kind = 4) ->
  (forall trace r,
      log (snd (getBusinessName w s)) = (log s ++ trace)%list ->
      In r trace -> method r = "post" ->
      url r = baseUrl (self s) ++ "/sfcverify/v1/query/info"
      /\ getProp (data r) "IdentifierType" = JNum kind
      /\ getProp (data r) "Identifier" = businessShortCode (self s))
  /\ (forall token,
         tokenFetch (http w (log s) (tokenRequest (self s))) = inr token ->
         exists r,
           log (snd (getBusinessName w s))
           = (log s ++ [tokenRequest (self s); r])%list
           /\ method r = "post"
           /\ getProp (data r) "IdentifierType" = JNum kind)
  /\ (forall pre req body,
         log (snd (getBusinessName w s)) = (log s ++ pre ++ [req])%list ->
         method req = "post" ->
         http w (log s ++ pre)%list req = HttpResponse 200 body ->
         truthy body = true ->
         fst (getBusinessName w s) = Return (getProp body "OrganizationName")).
Proof.
  intros Hk.
  destruct (getBusinessName_parts w s) as [Es Ef]. rewrite Es, Ef.
  assert (Ea : forall pre req body,
             log (snd (queryOrgInfo w (shortCodeType (self s))
                         (businessShortCode (self s)) s))
             = (log s ++ pre ++ [req])%list ->
             method req = "post" ->
             http w (log s ++ pre)%list req = HttpResponse 200 body ->
             truthy body = true ->
             fst (queryOrgInfo w (shortCodeType (self s))
                    (businessShortCode (self s)) s) = Return body).
  { intros pre req body H Hm Hh Hb.
    pose proof (invoke_answered w
                  (QueryOrgInfo (shortCodeType (self s))
                     (businessShortCode (self s))) s pre req H Hm) as A.
    cbn [invoke] in A. rewrite A, Hh. cbn [answer].
    change (accepted 200) with true. cbv iota. rewrite Hb. reflexivity. }
  assert (E : queryOrgInfo w (shortCodeType (self s))
                (businessShortCode (self s)) s
              = exchange w standardKeys "sfcverify/v1/query/info"
                  (JObj [("IdentifierType", JNum kind);
                         ("Identifier", businessShortCode (self s))]) s).
  { rewrite queryOrgInfo_run. destruct Hk as [[-> ->] | [-> ->]]; reflexivity. }
  split; [| split].
  - rewrite E. intros trace r H Hin Hm.
    destruct (exchange_posts w standardKeys "sfcverify/v1/query/info"
                (JObj [("IdentifierType", JNum kind);
                       ("Identifier", businessShortCode (self s))]) s)
      as (A & _ & _).
    destruct (A trace r H Hin Hm) as [-> ->]. repeat split.
  - rewrite E. intros token Ht.
    destruct (exchange_posts w standardKeys "sfcverify/v1/query/info"
                (JObj [("IdentifierType", JNum kind);
                       ("Identifier", businessShortCode (self s))]) s)
      as (_ & B & _).
    destruct (B token Ht) as (r & H & Hm & Hd & _).
    exists r. rewrite Hd. repeat split; assumption.
  - intros pre req body H Hm Hh Hb.
    now rewrite (Ea pre req body H Hm Hh Hb).
Qed.

Lemma getBusinessName_returns_witness :
  fst (getBusinessName Sample.named Sample.start) = Return (JStr "Duka").
Proof.
  destruct (getBusinessName_returns Sample.named Sample.start 4) as (_ & _ & H).
  - right. split; reflexivity.
  - apply (H [tokenRequest Sample.client]
             (postRequest Sample.client (JStr "tok") "sfcverify/v1/query/info"
                (JObj [("IdentifierType", JNum 4);
                       ("Identifier", JStr "174379")]))
             (JObj [("OrganizationName", JStr "Duka")]));
      reflexivity.
Defined.

Lemma append_same_head (a x y : string) : a ++ x = a ++ y -> x = y.
Proof.
  induction a as [| c a IH]; cbn; [trivial |].
  intros [= H]. now apply IH.
Qed.

Lemma generateQRCode_after_name (w : World)
    (amount accountNumber size : JSValue) (s : State) :
  truthy amount = true ->
  invoke w (GenerateQRCode amount accountNumber size) s
  = match getBusinessName w s with
    | (Return name, s1) =>
        exchange w standardKeys "mpesa/qrcode/v1/generate"
          (JObj [("MerchantName", name);
                 ("RefNo", accountNumber);
                 ("Amount", amount);
                 ("TrxCode",
                  if js_is (shortCodeType (self s)) "paybill"
                  then JStr "PB" else JStr "BG");
                 ("CPI", businessShortCode (self s));
                 ("Size", orDefault size (JNum 300))]) s1
    | (Throw e, s1) => (Throw e, s1)
    end.
Proof.
  intros Ha. cbn [invoke]. unfold generateQRCode.
  rewrite (bind_require_true _ _ _ _ Ha), bind_getThis.
  reflexivity.
Qed.

Lemma getBusinessName_trace (w : World) (s : State) :
  exists trace,
    log (snd (getBusinessName w s)) = (log s ++ trace)%list
    /\ forall r, In r trace ->
                 url r <> baseUrl (self s) ++ "/mpesa/qrcode/v1/generate".
Proof.
  destruct (getBusinessName_parts w s) as [-> _].
  assert (Q : forall p,
             exists trace,
               log (snd (exchange w standardKeys "sfcverify/v1/query/info" p s))
               = (log s ++ trace)%list
               /\ forall r, In r trace ->
                            url r <> baseUrl (self s)
                                     ++ "/mpesa/qrcode/v1/generate").
  { intros p. rewrite exchange_log. eexists. split; [reflexivity |].
    unfold exchanged. intros r [<- | Hin].
    - cbn [url tokenRequest]. intros H. apply append_same_head in H.
      discriminate H.
    - destruct (tokenFetch _); [destruct Hin |].
      destruct Hin as [<- | []]. cbn [url postRequest]. intros H.
      apply append_same_head in H. discriminate H. }
  rewrite queryOrgInfo_run.
  destruct (js_is (shortCodeType (self s)) "till"); [apply Q |].
  destruct (js_is (shortCodeType (self s)) "paybill"); [apply Q |].
  exists []. cbn [snd]. rewrite app_nil_r. split; [reflexivity | intros r []].
Qed.

(** [generateQRCode] with a truthy amount puts the looked-up name into its
    own POST: every request it sends to the QR endpoint carries as
    [MerchantName] the name [getBusinessName] returned, beside the account
    number, the amount, "PB" for a paybill client and "BG" otherwise, the
    client's shortcode, and the size given or 300 when none is.  When
    [getBusinessName] fails, the call fails with the same error and sends
    nothing beyond what the lookup sent. *)
Theorem generateQRCode_merchant (w : World)
    (amount accountNumber size : JSValue) (s : State) :
  truthy amount = true ->
  (forall r,
      In r (sent w (GenerateQRCode amount accountNumber size) s) ->
      url r = baseUrl (self s) ++ "/mpesa/qrcode/v1/generate" ->
      exists name,
        fst (getBusinessName w s) = Return name
        /\ getProp (data r) "MerchantName" = name
        /\ getProp (data r) "RefNo" = accountNumber
        /\ getProp (data r) "Amount" = amount
        /\ getProp (data r) "TrxCode"
           = (if js_is (shortCodeType (self s)) "paybill"
              then JStr "PB" else JStr "BG")
        /\ getProp (data r) "CPI" = businessShortCode (self s)
        /\ getProp (data r) "Size"
           = match size with
             | JUndefined => JNum 300
             | _ => size
             end)
  /\ (forall e,
         fst (getBusinessName w s) = Throw e ->
         fst (invoke w (GenerateQRCode amount accountNumber size) s) = Throw e
         /\ snd (invoke w (GenerateQRCode amount accountNumber size) s)
            = snd (getBusinessName w s)).
Proof.
  intros Ha. unfold sent. rewrite (generateQRCode_after_name w _ _ _ s Ha).
  destruct (getBusinessName_trace w s) as (tr1 & E1 & Hno).
  pose proof (getBusinessName_self w s) as Hself.
  destruct (getBusinessName w s) as [[name | e] s1]; cbn [fst snd] in *.
  - split; [| discriminate].
    intros r Hin Hu. rewrite exchange_log, E1, <- app_assoc in Hin.
    rewrite skipn_length_app in Hin.
    apply in_app_iff in Hin as [Hin | Hin]; [now apply Hno in Hin |].
    unfold exchanged in Hin. rewrite Hself in Hin.
    destruct Hin as [<- | Hin].
    { cbn [url tokenRequest] in Hu. apply append_same_head in Hu.
      discriminate Hu. }
    destruct (tokenFetch _); [destruct Hin |].
    destruct Hin as [<- | []]. exists name. cbn [data postRequest].
    repeat split.
  - split.
    + intros r Hin Hu. rewrite E1, skipn_length_app in Hin.
      now apply Hno in Hin.
    + intros e' [= <-]. split; reflexivity.
Qed.

Lemma generateQRCode_merchant_witness :
  exists name,
    fst (getBusinessName Sample.named Sample.start) = Return name
    /\ getProp
         (data (nth 3 (sent Sample.named
                         (GenerateQRCode (JNum 50) (JStr "INV-3") JUndefined)
                         Sample.start)
                  (tokenRequest Sample.client)))
         "MerchantName"
       = name.
Proof.
  destruct (generateQRCode_merchant Sample.named (JNum 50) (JStr "INV-3")
              JUndefined Sample.start eq_refl) as [H _].
  destruct (H (nth 3 (sent Sample.named
                        (GenerateQRCode (JNum 50) (JStr "INV-3") JUndefined)
                        Sample.start)
                 (tokenRequest Sample.client)))
    as (name & Hn & Hm & _).
  - vm_compute. right. right. right. left. reflexivity.
  - reflexivity.
  - exists name. split; [exact Hn | exact Hm].
Defined.
